(** * Juju Dashboard: the aggregation and filtering layer

    A shallow embedding of [utils/db.py], of the [/flagged] route of
    [main.py] and of the issue summary of [pages/3_Flagged_Issues.py],
    with the properties of the design document stated against it.

    Conventions of the embedding.
    - A pandas [DataFrame] is the list of its rows, in row order; a frame
      is [.empty] exactly when the list is [nil].
    - A nullable column cell is an [option]; [None] stands for the JSON
      [null] of the store and for the missing value ([NaN]/[None]) pandas
      puts in its place.
    - Scores, latencies and thresholds are exact rationals ([Q]); only the
      absorbing value [NaN], which the code can produce, is kept from
      floating point.
    - [created_at] is a UTC instant in seconds; its calendar date is the
      day number [created_at / 86400].
    - Every function of [utils/db.py] runs in the [Client] monad: it reads
      the store and logs each query it executes. *)

From Stdlib Require Import List ZArith QArith Qround String Ascii Bool Lia.
From Stdlib Require Import Sorted Permutation.
Import ListNotations.
Open Scope Z_scope.

(* ===================================================================== *)
(** ** Python and pandas values *)
(* ===================================================================== *)

Module Py.

(** A Python float as an aggregate can return it. *)
Inductive float : Type :=
| NaN
| Num (q : Q).

(** A cell of [DataFrame.to_dict("records")]. *)
Inductive obj : Type :=
| PyNone
| PyNaN
| PyFloat (q : Q).

Definition Qltb (x y : Q) : bool := negb (Qle_bool y x).

(** [bool(x)] on floats: zero is falsy, everything else, [nan] included,
    is truthy. *)
Definition truthy (x : float) : bool :=
  match x with
  | NaN => true
  | Num q => negb (Qeq_bool q 0)
  end.

(** [x or d]. *)
Definition or_ (x : float) (d : Q) : float :=
  if truthy x then x else Num d.

Definition obj_truthy (x : obj) : bool :=
  match x with
  | PyNone => false
  | PyNaN => true
  | PyFloat q => negb (Qeq_bool q 0)
  end.

(** [x or d] on a record cell. *)
Definition obj_or (x : obj) (d : Q) : obj :=
  if obj_truthy x then x else PyFloat d.

(** [x < t]; every comparison with [nan] is [False]. [PyNone] never
    reaches a comparison in the code (it is replaced by [or] first). *)
Definition obj_lt (x : obj) (t : Q) : bool :=
  match x with
  | PyFloat q => Qltb q t
  | PyNaN | PyNone => false
  end.

(** Rounding half to even of a rational to an integer. *)
Definition round_half_even (y : Q) : Z :=
  let f := Qfloor y in
  let r := (y - inject_Z f)%Q in
  match (r ?= 1 # 2)%Q with
  | Lt => f
  | Gt => f + 1
  | Eq => if Z.even f then f else f + 1
  end.

(** [round(x, ndigits)]. *)
Definition round (x : float) (ndigits : nat) : float :=
  match x with
  | NaN => NaN
  | Num q =>
      let s := inject_Z (10 ^ Z.of_nat ndigits) in
      Num (Qred (inject_Z (round_half_even (q * s)) / s))
  end.

(** Equality of floats as numbers; [nan] is only compared with itself
    here, to say that a result is [nan]. *)
Definition eq (x y : float) : Prop :=
  match x, y with
  | NaN, NaN => True
  | Num p, Num q => (p == q)%Q
  | _, _ => False
  end.

(** Truthiness of an [Optional[str]] argument. *)
Definition str_truthy (o : option string) : bool :=
  match o with
  | Some s => negb (String.eqb s "")
  | None => false
  end.

End Py.

Module Pd.

(** The non-null cells of a column. *)
Fixpoint dropna {A : Type} (col : list (option A)) : list A :=
  match col with
  | [] => []
  | Some x :: col' => x :: dropna col'
  | None :: col' => dropna col'
  end.

Definition Qsum (xs : list Q) : Q := fold_right Qplus 0%Q xs.

(** [Series.mean()]: nulls are skipped; [nan] when nothing is left. *)
Definition mean (col : list (option Q)) : Py.float :=
  match dropna col with
  | [] => Py.NaN
  | x :: xs => Py.Num (Qsum (x :: xs) / inject_Z (Z.of_nat (List.length (x :: xs))))
  end.

(** [Series.sum()] of a boolean column with missing cells: the number
    of [True]. *)
Definition sum_bool (col : list (option bool)) : Z :=
  Z.of_nat (List.length (filter (fun b => b) (dropna col))).

(** [Series.fillna(v)], cell by cell. *)
Definition fillna {A : Type} (v : A) (cell : option A) : A :=
  match cell with
  | Some x => x
  | None => v
  end.

(** [col == v] for a nullable column: a missing cell is never equal. *)
Definition eq_str (cell : option string) (v : string) : bool :=
  match cell with
  | Some s => String.eqb s v
  | None => false
  end.

Definition eq_bool (cell : option bool) (v : bool) : bool :=
  match cell with
  | Some b => Bool.eqb b v
  | None => false
  end.

(** [col < t] for a nullable numeric column. *)
Definition lt (cell : option Q) (t : Q) : bool :=
  match cell with
  | Some q => Py.Qltb q t
  | None => false
  end.

Definition is_null {A : Type} (cell : option A) : bool :=
  match cell with
  | Some _ => false
  | None => true
  end.

(** The dtype of a numeric column built by [pd.DataFrame(rows)]: [object]
    when every cell is null, [float64] otherwise. *)
Definition object_dtype (col : list (option Q)) : bool := forallb is_null col.

(** A cell of a numeric column as [to_dict("records")] yields it: a null
    is [None] in an [object] column and [nan] in a [float64] one. *)
Definition to_dict_cell (object : bool) (cell : option Q) : Py.obj :=
  match cell with
  | Some q => Py.PyFloat q
  | None => if object then Py.PyNone else Py.PyNaN
  end.

End Pd.

(* ===================================================================== *)
(** ** The store: two tables and the queries the code builds *)
(* ===================================================================== *)

Record Message : Type := mkMessage {
  id : Z;
  created_at : Z;
  question : option string;
  response : option string;
  response_time_ms : option Q
}.

Record Evaluation : Type := mkEvaluation {
  message_id : Z;
  faithfulness_score : option Q;
  hallucination_detected : bool;
  capability_hallucination : bool;
  citation_accurate : option bool;
  question_type : string;
  question_complexity : string;
  is_high_risk_topic : bool
}.

Record Store : Type := mkStore {
  juju_messages : list Message;
  juju_evaluations : list Evaluation
}.

Inductive table : Type :=
| T_juju_messages
| T_juju_evaluations.

(** A computation that reads the store and logs the table of every query
    it executes, in order. *)
Definition Client (A : Type) : Type := Store -> A * list table.

Definition ret {A : Type} (a : A) : Client A := fun _ => (a, []).

Definition bind {A B : Type} (c : Client A) (k : A -> Client B) : Client B :=
  fun s =>
    let (a, l1) := c s in
    let (b, l2) := k a s in
    (b, l1 ++ l2).

Notation "x <- c ;; k" := (bind c (fun x => k))
  (at level 61, c at next level, right associativity).

Definition result {A : Type} (c : Client A) (s : Store) : A := fst (c s).
Definition queries {A : Type} (c : Client A) (s : Store) : list table := snd (c s).

Module Query.

(** [.gte("created_at", d)] under [if d:]. *)
Definition gte_created_at (d : option Z) (rows : list Message) : list Message :=
  match d with
  | Some t => filter (fun m => t <=? created_at m) rows
  | None => rows
  end.

(** [.lte("created_at", d)] under [if d:]. *)
Definition lte_created_at (d : option Z) (rows : list Message) : list Message :=
  match d with
  | Some t => filter (fun m => created_at m <=? t) rows
  | None => rows
  end.

Fixpoint mem (x : Z) (l : list Z) : bool :=
  match l with
  | [] => false
  | y :: l' => (x =? y) || mem x l'
  end.

(** [.in_("id", ids)] and [.in_("message_id", ids)]. *)
Definition id_in (ids : list Z) (rows : list Message) : list Message :=
  filter (fun m => mem (id m) ids) rows.

Definition message_id_in (ids : list Z) (rows : list Evaluation) : list Evaluation :=
  filter (fun e => mem (message_id e) ids) rows.

(** [.order("created_at", desc=True)]: newest first. The store leaves the
    order of rows with equal instants open; here they keep their table
    order. *)
Fixpoint insert_desc (m : Message) (l : list Message) : list Message :=
  match l with
  | [] => [m]
  | x :: l' =>
      if created_at x <=? created_at m then m :: x :: l'
      else x :: insert_desc m l'
  end.

Definition order_created_at_desc (rows : list Message) : list Message :=
  fold_right insert_desc [] rows.

(** [.range(from, to)]: the rows at positions [from..to], both included. *)
Definition range (from to : Z) (rows : list Message) : list Message :=
  firstn (Z.to_nat (to - from + 1)) (skipn (Z.to_nat from) rows).

(** [.limit(n)]. *)
Definition limit (n : Z) (rows : list Message) : list Message :=
  firstn (Z.to_nat n) rows.

(** The two date filters together. *)
Definition created_between (start_date end_date : option Z)
           (rows : list Message) : list Message :=
  lte_created_at end_date (gte_created_at start_date rows).

(** The page of messages both [get_messages] and [get_messages_with_evals]
    ask for: the date filters, newest first, rows [offset] to
    [offset + limit - 1]. *)
Definition page (limit offset : Z) (start_date end_date : option Z)
           (rows : list Message) : list Message :=
  range offset (offset + limit - 1)
    (order_created_at_desc (created_between start_date end_date rows)).

(** [.execute()] on a query over one table. *)
Definition execute_messages (q : list Message -> list Message)
  : Client (list Message) :=
  fun s => (q (juju_messages s), [T_juju_messages]).

Definition execute_evaluations (q : list Evaluation -> list Evaluation)
  : Client (list Evaluation) :=
  fun s => (q (juju_evaluations s), [T_juju_evaluations]).

End Query.

(** [df.empty]. *)
Definition empty {A : Type} (df : list A) : bool :=
  match df with
  | [] => true
  | _ :: _ => false
  end.

(* ===================================================================== *)
(** ** Joined rows *)
(* ===================================================================== *)

(** A row of a frame that carries the message columns and, when the
    message has one, the evaluation columns. A row of the bare message
    frame is a row with no evaluation. *)
Record JoinedRecord : Type := mkJoined {
  jr_message : Message;
  jr_evaluation : option Evaluation
}.

Definition col {A : Type} (f : Evaluation -> A) (r : JoinedRecord) : option A :=
  option_map f (jr_evaluation r).

Definition col_opt {A : Type} (f : Evaluation -> option A) (r : JoinedRecord)
  : option A :=
  match jr_evaluation r with
  | Some e => f e
  | None => None
  end.

Definition evals_of (m : Message) (evals : list Evaluation) : list Evaluation :=
  filter (fun e => message_id e =? id m) evals.

(** [left.merge(right, left_on="id", right_on="message_id", how="left")]:
    left order is kept, every matching right row gives one row, a left row
    with no match gives one row with missing right columns. *)
Definition merge_left (msgs : list Message) (evals : list Evaluation)
  : list JoinedRecord :=
  flat_map
    (fun m =>
       match evals_of m evals with
       | [] => [mkJoined m None]
       | e :: es => map (fun e' => mkJoined m (Some e')) (e :: es)
       end)
    msgs.

(** The same with [how="inner"]: unmatched left rows are dropped. *)
Definition merge_inner (msgs : list Message) (evals : list Evaluation)
  : list (Message * Evaluation) :=
  flat_map (fun m => map (fun e => (m, e)) (evals_of m evals)) msgs.

(* ===================================================================== *)
(** ** utils/db.py *)
(* ===================================================================== *)

Module Db.

Section WithTextSearch.

(** [Series.str.contains(pat, case=False)] on a non-null cell: the
    pattern search of pandas, which the repository calls but does not
    define. *)
Variable str_contains : string -> string -> bool.

(** The same with [na=False]: a null cell never matches. *)
Definition contains (pat : string) (cell : option string) : bool :=
  match cell with
  | Some s => str_contains pat s
  | None => false
  end.

Definition search_mask (pat : string) (m : Message) : bool :=
  contains pat (question m) || contains pat (response m).

Definition get_messages (limit offset : Z) (search : option string)
           (start_date end_date : option Z) : Client (list Message) :=
  df <- Query.execute_messages (Query.page limit offset start_date end_date) ;;
  match search with
  | Some pat =>
      if Py.str_truthy search && negb (empty df)
      then ret (filter (search_mask pat) df)
      else ret df
  | None => ret df
  end.

Definition get_evaluations (message_ids : list Z) : Client (list Evaluation) :=
  if empty message_ids then ret []
  else Query.execute_evaluations (Query.message_id_in message_ids).

(** The filters applied to the merged frame, in the order of the code. *)
Definition filter_search (search : option string) (merged : list JoinedRecord)
  : list JoinedRecord :=
  match search with
  | Some pat =>
      if Py.str_truthy search
      then filter (fun r => search_mask pat (jr_message r)) merged
      else merged
  | None => merged
  end.

Definition filter_column (f : Evaluation -> string) (value : option string)
           (merged : list JoinedRecord) : list JoinedRecord :=
  match value with
  | Some v =>
      if Py.str_truthy value && negb (String.eqb v "All")
      then filter (fun r => Pd.eq_str (col f r) v) merged
      else merged
  | None => merged
  end.

Definition filter_high_risk (high_risk_only : bool) (merged : list JoinedRecord)
  : list JoinedRecord :=
  if high_risk_only
  then filter (fun r => Pd.eq_bool (col is_high_risk_topic r) true) merged
  else merged.

Definition get_messages_with_evals (limit offset : Z) (search : option string)
           (start_date end_date : option Z)
           (question_type_ complexity : option string) (high_risk_only : bool)
  : Client (list JoinedRecord) :=
  messages_df <- Query.execute_messages
                   (Query.page limit offset start_date end_date) ;;
  if empty messages_df then ret []
  else
    let message_ids := map id messages_df in
    evals_df <- Query.execute_evaluations (Query.message_id_in message_ids) ;;
    if empty evals_df then ret (map (fun m => mkJoined m None) messages_df)
    else
      let merged := merge_left messages_df evals_df in
      let merged := filter_search search merged in
      let merged := filter_column question_type question_type_ merged in
      let merged := filter_column question_complexity complexity merged in
      let merged := filter_high_risk high_risk_only merged in
      ret merged.

End WithTextSearch.

(** The four disjuncts of the flag mask of [get_flagged_messages]. *)
Definition mask_hallucination (e : Evaluation) : bool :=
  Bool.eqb (hallucination_detected e) true.

Definition mask_capability_hallucination (e : Evaluation) : bool :=
  Bool.eqb (capability_hallucination e) true.

Definition mask_low_faithfulness (faithfulness_threshold : Q) (e : Evaluation)
  : bool :=
  Py.Qltb (Pd.fillna 1%Q (faithfulness_score e)) faithfulness_threshold.

Definition mask_inaccurate_citation (e : Evaluation) : bool :=
  Pd.eq_bool (citation_accurate e) false.

Definition flag_mask (faithfulness_threshold : Q) (e : Evaluation) : bool :=
  mask_hallucination e
  || mask_capability_hallucination e
  || mask_low_faithfulness faithfulness_threshold e
  || mask_inaccurate_citation e.

(** The frame [get_flagged_messages] returns: its rows, and the dtype of
    its [faithfulness_score] column, which selecting and merging rows keep
    as [pd.DataFrame(evals_response.data)] fixed it. *)
Record FlaggedFrame : Type := mkFlagged {
  rows : list (Message * Evaluation);
  faithfulness_object : bool
}.

Definition get_flagged_messages (limit : Z) (faithfulness_threshold : Q)
           (start_date end_date : option Z) : Client FlaggedFrame :=
  evals_df <- Query.execute_evaluations (fun rows => rows) ;;
  let object := Pd.object_dtype (map faithfulness_score evals_df) in
  if empty evals_df then ret (mkFlagged [] object)
  else
    let flagged_evals := filter (flag_mask faithfulness_threshold) evals_df in
    if empty flagged_evals then ret (mkFlagged [] object)
    else
      let message_ids := map message_id flagged_evals in
      messages_df <- Query.execute_messages
                       (fun rows =>
                          Query.limit limit
                            (Query.order_created_at_desc
                               (Query.created_between start_date end_date
                                  (Query.id_in message_ids rows)))) ;;
      if empty messages_df then ret (mkFlagged [] object)
      else ret (mkFlagged (merge_inner messages_df flagged_evals) object).

Record MetricsSummary : Type := mkSummary {
  total_messages : Z;
  avg_response_time_ms : Py.float;
  avg_faithfulness : Py.float;
  hallucination_rate : Py.float;
  messages_today : Z
}.

(** [pd.to_datetime(created_at).dt.date]. *)
Definition date_of (t : Z) : Z := t / 86400.

Definition len {A : Type} (df : list A) : Z := Z.of_nat (List.length df).

(** [now] is [datetime.utcnow()]. Every row of the evaluations table
    carries all its columns, so the [in evals_df.columns] tests of the
    code succeed on a non-empty frame. *)
Definition get_metrics_summary (now : Z) (start_date end_date : option Z)
  : Client MetricsSummary :=
  messages_df <- Query.execute_messages
                   (Query.created_between start_date end_date) ;;
  if empty messages_df
  then ret (mkSummary 0 (Py.Num 0) (Py.Num 0) (Py.Num 0) 0)
  else
    let message_ids := map id messages_df in
    evals_df <- Query.execute_evaluations (Query.message_id_in message_ids) ;;
    let total_messages := len messages_df in
    let avg_response_time := Pd.mean (map response_time_ms messages_df) in
    let today := date_of now in
    let messages_today :=
      len (filter (fun m => date_of (created_at m) =? today) messages_df) in
    let '(avg_faithfulness, hallucination_rate) :=
      if negb (empty evals_df)
      then
        let avg_faithfulness := Pd.mean (map faithfulness_score evals_df) in
        let hallucination_count :=
          Pd.sum_bool (map (fun e => Some (hallucination_detected e)) evals_df) in
        let hallucination_rate :=
          if 0 <? len evals_df
          then (inject_Z hallucination_count / inject_Z (len evals_df))%Q
          else 0%Q in
        (avg_faithfulness, hallucination_rate)
      else (Py.Num 0, 0%Q) in
    ret (mkSummary total_messages
           (Py.round (Py.or_ avg_response_time 0) 0)
           (Py.round (Py.or_ avg_faithfulness 0) 3)
           (Py.round (Py.Num (hallucination_rate * 100)) 1)
           messages_today).

(** A row of the frame [get_daily_metrics] groups: the message columns
    it selected, its [date], and the two evaluation columns it reads. *)
Record DailyRow : Type := mkDailyRow {
  d_date : Z;
  d_msg_id : Z;
  d_response_time_ms : option Q;
  d_faithfulness_score : option Q;
  d_hallucination_detected : option bool
}.

Definition daily_row (r : JoinedRecord) : DailyRow :=
  let m := jr_message r in
  mkDailyRow (date_of (created_at m)) (id m) (response_time_ms m)
    (col_opt faithfulness_score r) (col hallucination_detected r).

(** The [else] branch: [merged["faithfulness_score"] = None] and
    [merged["hallucination_detected"] = False]. *)
Definition daily_row_no_evals (m : Message) : DailyRow :=
  mkDailyRow (date_of (created_at m)) (id m) (response_time_ms m)
    None (Some false).

Record DayBucket : Type := mkBucket {
  date : Z;
  message_count : Z;
  avg_response_time : Py.float;
  b_avg_faithfulness : Py.float;
  b_hallucination_rate : Q
}.

(** The group keys of [groupby("date")]: the distinct dates, ascending. *)
Fixpoint insert_date (d : Z) (l : list Z) : list Z :=
  match l with
  | [] => [d]
  | x :: l' =>
      match d ?= x with
      | Lt => d :: x :: l'
      | Eq => x :: l'
      | Gt => x :: insert_date d l'
      end
  end.

Definition group_keys (rows : list DailyRow) : list Z :=
  fold_right insert_date [] (map d_date rows).

Definition group (d : Z) (rows : list DailyRow) : list DailyRow :=
  filter (fun r => d_date r =? d) rows.

(** [lambda x: x.sum() / len(x) * 100 if len(x) > 0 else 0]. *)
Definition hallucination_agg (x : list (option bool)) : Q :=
  if 0 <? len x
  then (inject_Z (Pd.sum_bool x) / inject_Z (len x) * 100)%Q
  else 0%Q.

Definition aggregate (d : Z) (g : list DailyRow) : DayBucket :=
  mkBucket d
    (len g)
    (Pd.mean (map d_response_time_ms g))
    (Pd.mean (map d_faithfulness_score g))
    (hallucination_agg (map d_hallucination_detected g)).

(** [merged.groupby("date").agg(...)], already sorted by date, which
    [sort_values("date")] then leaves as it is. *)
Definition groupby_date_agg (merged : list DailyRow) : list DayBucket :=
  map (fun d => aggregate d (group d merged)) (group_keys merged).

(** [if not start_date: start_date = datetime.utcnow() - timedelta(days=days)]. *)
Definition default_start (now days : Z) (start_date : option Z) : Z :=
  match start_date with
  | Some t => t
  | None => now - days * 86400
  end.

Definition get_daily_metrics (now : Z) (days : Z)
           (start_date end_date : option Z) : Client (list DayBucket) :=
  let start_date := default_start now days start_date in
  messages_df <- Query.execute_messages
                   (Query.created_between (Some start_date) end_date) ;;
  if empty messages_df then ret []
  else
    let message_ids := map id messages_df in
    evals_df <- Query.execute_evaluations (Query.message_id_in message_ids) ;;
    let merged :=
      if negb (empty evals_df)
      then map daily_row (merge_left messages_df evals_df)
      else map daily_row_no_evals messages_df in
    ret (groupby_date_agg merged).

End Db.


(* ===================================================================== *)
(** ** main.py: the [/flagged] route *)
(* ===================================================================== *)

Module Main.

Open Scope string_scope.

(** [now] is [datetime.utcnow()]. *)
Definition parse_date_range (now : Z) (range_str : string)
  : option Z * option Z :=
  let start_date :=
    if String.eqb range_str "7d" then Some (now - 7 * 86400)%Z
    else if String.eqb range_str "30d" then Some (now - 30 * 86400)%Z
    else if String.eqb range_str "90d" then Some (now - 90 * 86400)%Z
    else None in
  (start_date, None).

Close Scope string_scope.

(** The cell [m.get("faithfulness_score")] of a record of
    [df.to_dict("records")]. *)
Definition faithfulness_cell (object : bool) (m : Message * Evaluation)
  : Py.obj :=
  Pd.to_dict_cell object (faithfulness_score (snd m)).

Definition halluc_count (flagged : list (Message * Evaluation)) : Z :=
  Db.len (filter (fun m => hallucination_detected (snd m)) flagged).

Definition cap_halluc_count (flagged : list (Message * Evaluation)) : Z :=
  Db.len (filter (fun m => capability_hallucination (snd m)) flagged).

(** [sum(1 for m in flagged
         if (m.get("faithfulness_score") or 1) < threshold)]. *)
Definition low_faith_count (object : bool) (threshold : Q)
           (flagged : list (Message * Evaluation)) : Z :=
  Db.len
    (filter
       (fun m => Py.obj_lt (Py.obj_or (faithfulness_cell object m) 1) threshold)
       flagged).

Definition bad_citation_count (flagged : list (Message * Evaluation)) : Z :=
  Db.len (filter (fun m => Pd.eq_bool (citation_accurate (snd m)) false) flagged).

Record FlaggedContext : Type := mkContext {
  flagged : list (Message * Evaluation);
  ctx_halluc_count : Z;
  ctx_cap_halluc_count : Z;
  ctx_low_faith_count : Z;
  ctx_bad_citation_count : Z;
  ctx_threshold : Q
}.

Inductive Response : Type :=
| RequestValidationError
| TemplateResponse (ctx : FlaggedContext).

(** [threshold: float = Query(0.7, ge=0, le=1)]: the framework checks the
    declared bounds and answers without calling the handler when they
    fail. *)
Definition threshold_valid (threshold : Q) : bool :=
  Qle_bool 0 threshold && Qle_bool threshold 1.

Definition flagged_page (now : Z) (range_str : string) (threshold : Q)
  : Client Response :=
  if threshold_valid threshold
  then
    let '(start_date, end_date) := parse_date_range now range_str in
    df <- Db.get_flagged_messages 100 threshold start_date end_date ;;
    let flagged := Db.rows df in
    if negb (empty flagged)
    then
      ret (TemplateResponse
             (mkContext flagged
                (halluc_count flagged) (cap_halluc_count flagged)
                (low_faith_count (Db.faithfulness_object df) threshold flagged)
                (bad_citation_count flagged) threshold))
    else ret (TemplateResponse (mkContext flagged 0 0 0 0 threshold))
  else ret RequestValidationError.

End Main.

(* ===================================================================== *)
(** ** pages/3_Flagged_Issues.py: the issue summary *)
(* ===================================================================== *)

Module FlaggedIssues.

Definition halluc_count (df : list (Message * Evaluation)) : Z :=
  Pd.sum_bool (map (fun r => Some (hallucination_detected (snd r))) df).

Definition cap_halluc_count (df : list (Message * Evaluation)) : Z :=
  Pd.sum_bool (map (fun r => Some (capability_hallucination (snd r))) df).

(** [len(df[df["faithfulness_score"] < faithfulness_threshold])]. *)
Definition low_faith_count (faithfulness_threshold : Q)
           (df : list (Message * Evaluation)) : Z :=
  Db.len
    (filter (fun r => Pd.lt (faithfulness_score (snd r)) faithfulness_threshold) df).

Definition bad_citations (df : list (Message * Evaluation)) : Z :=
  Db.len (filter (fun r => Pd.eq_bool (citation_accurate (snd r)) false) df).

End FlaggedIssues.

(* ===================================================================== *)
(** ** The rules of the design document, for comparison *)
(* ===================================================================== *)

Module Rules.

(** LowFaithfulness as the design document words it: the score is present
    and strictly below the threshold. *)
Definition low_faithfulness (threshold : Q) (e : Evaluation) : bool :=
  match faithfulness_score e with
  | Some q => Py.Qltb q threshold
  | None => false
  end.

Definition low_faithfulness_count (threshold : Q)
           (records : list (Message * Evaluation)) : Z :=
  Db.len (filter (fun r => low_faithfulness threshold (snd r)) records).

(** The daily hallucination rate as the design document words it: among
    the evaluated rows of the day. *)
Definition hallucination_rate_pct (x : list (option bool)) : Q :=
  match Pd.dropna x with
  | [] => 0%Q
  | b :: bs =>
      (inject_Z (Pd.sum_bool x) / inject_Z (Db.len (b :: bs)) * 100)%Q
  end.

End Rules.

(* ===================================================================== *)
(** ** Sample data *)
(* ===================================================================== *)

Module Sample.

Open Scope string_scope.

(** A literal, ASCII case-insensitive substring test; it agrees with the
    pattern search on patterns without metacharacters. *)
Definition lower (c : ascii) : ascii :=
  let n := nat_of_ascii c in
  if (Nat.leb 65 n && Nat.leb n 90)%bool then ascii_of_nat (n + 32) else c.

Fixpoint lowercase (s : string) : string :=
  match s with
  | EmptyString => EmptyString
  | String c s' => String (lower c) (lowercase s')
  end.

Fixpoint find (pat s : string) : bool :=
  (String.prefix pat s
   || match s with
      | EmptyString => false
      | String _ s' => find pat s'
      end)%bool.

Definition icontains (pat s : string) : bool :=
  find (lowercase pat) (lowercase s).

Definition day (n : Z) : Z := n * 86400.

Definition msg (i t : Z) (q : string) : Message :=
  mkMessage i t (Some q) (Some "See the linked guide.") (Some (200 # 1)).

Definition eval (i : Z) (score : option Q) (halluc : bool) : Evaluation :=
  mkEvaluation i score halluc false (Some true) "how_to" "simple" false.

(** One message whose only evaluation has a null faithfulness score and
    raises no other flag. *)
Definition m_refund : Message := msg 1 (day 10 + 5) "How to refund?".
Definition e_null : Evaluation := eval 1 None false.
Definition store_null_score : Store := mkStore [m_refund] [e_null].

(** Two messages of the same day; only the first is evaluated, and it is
    a hallucination. *)
Definition m_export : Message := msg 2 (day 10 + 50) "Can we export?".
Definition e_halluc : Evaluation := eval 1 (Some (9 # 10)) true.
Definition store_half_evaluated : Store :=
  mkStore [m_refund; m_export] [e_halluc].

(** The same two messages, none evaluated. *)
Definition store_no_evals : Store := mkStore [m_refund; m_export] [].

(** One message whose evaluation scores faithfulness exactly 0. *)
Definition e_zero : Evaluation := eval 1 (Some 0%Q) false.
Definition store_zero_score : Store := mkStore [m_refund] [e_zero].

(** Four messages; the two that mention a refund are the oldest ones. *)
Definition m_old_refund : Message := msg 3 (day 8) "REFUND again".
Definition m_hello : Message := msg 4 (day 11) "hello".
Definition m_world : Message := msg 5 (day 12) "world".
Definition store_search : Store :=
  mkStore [m_refund; m_hello; m_world; m_old_refund] [].

Close Scope string_scope.

End Sample.

(** The message frame of [get_flagged_messages] as a function of the two
    tables. *)
Definition flagged_messages_df (limit : Z) (thr : Q) (sd ed : option Z)
           (s : Store) : list Message :=
  Query.limit limit
    (Query.order_created_at_desc
       (Query.created_between sd ed
          (Query.id_in
             (map message_id (filter (Db.flag_mask thr) (juju_evaluations s)))
             (juju_messages s)))).

(* ===================================================================== *)
(** ** main.py: the other routes *)
(* ===================================================================== *)

Module Routes.

(** [days = 30 if range == "30d" else 7 if range == "7d" else 90], as
    [metrics_page] and [api_daily] compute it. *)
Definition days_of_range (range_str : string) : Z :=
  if String.eqb range_str "30d" then 30
  else if String.eqb range_str "7d" then 7
  else 90.

(** The metrics [dashboard_home], [metrics_page] and [api_metrics] hand to
    the template or the response. *)
Definition metrics (now : Z) (range_str : string) : Client Db.MetricsSummary :=
  let '(start_date, end_date) := Main.parse_date_range now range_str in
  Db.get_metrics_summary now start_date end_date.

(** The daily rows of [metrics_page] and [api_daily], before each date is
    rendered as a string. *)
Definition daily_data (now : Z) (range_str : string)
  : Client (list Db.DayBucket) :=
  let '(start_date, end_date) := Main.parse_date_range now range_str in
  let days := days_of_range range_str in
  Db.get_daily_metrics now days start_date end_date.



End Routes.

(* ===================================================================== *)
(** ** pages/3_Flagged_Issues.py: the card of one flagged row *)
(* ===================================================================== *)

Module FlaggedCard.

Inductive Issue : Type :=
| Hallucination
| CapabilityHallucination
| LowFaithfulness (score : Q)
| InaccurateCitations.

(** The cell [row.get("faithfulness_score")] of a row of [df.iterrows()];
    [object] is the dtype of the column, as for [to_dict]. *)
Definition faithfulness_cell (object : bool) (row : Message * Evaluation)
  : Py.obj :=
  Pd.to_dict_cell object (faithfulness_score (snd row)).

(** The [issues] list the loop builds for one row, in the order of its
    four [if]s. *)
Definition issues (object : bool) (faithfulness_threshold : Q)
           (row : Message * Evaluation) : list Issue :=
  let e := snd row in
  (if hallucination_detected e then [Hallucination] else [])
  ++ (if capability_hallucination e then [CapabilityHallucination] else [])
  ++ (if Py.obj_truthy (faithfulness_cell object row)
         && Py.obj_lt (faithfulness_cell object row) faithfulness_threshold
      then match faithfulness_score e with
           | Some q => [LowFaithfulness q]
           | None => []
           end
      else [])
  ++ (if Pd.eq_bool (citation_accurate e) false then [InaccurateCitations] else []).

(** [s[:n] + "..." if len(s) > n else s], the question preview of the
    cards, on a string taken as its sequence of characters: [n] is 80 on
    this page and 100 in the message browser. *)
Definition question_preview (n : nat) (s : string) : string :=
  if Nat.ltb n (String.length s)
  then String.append (String.substring 0 n s) "..."
  else s.

End FlaggedCard.

(* ===================================================================== *)
(** ** Vocabulary of the statements *)
(* ===================================================================== *)

(** The bounds [gte]/[lte] put on [created_at]; both are inclusive. *)
Definition in_dates (sd ed : option Z) (m : Message) : bool :=
  match sd with
  | Some t => t <=? created_at m
  | None => true
  end
  && match ed with
     | Some t => created_at m <=? t
     | None => true
     end.

(** Newest first. *)
Definition newer_or_equal (a b : Message) : Prop := created_at b <= created_at a.

Definition Zsum (l : list Z) : Z := fold_right Z.add 0 l.

(** Each message has at most one evaluation row. *)
Definition one_evaluation_per_message (evals : list Evaluation) : Prop :=
  forall m, (List.length (evals_of m evals) <= 1)%nat.

(** The four filters of [get_messages_with_evals] on one merged row. *)
Definition search_ok (contains : string -> string -> bool)
           (search : option string) (r : JoinedRecord) : bool :=
  match search with
  | Some pat =>
      if Py.str_truthy search then Db.search_mask contains pat (jr_message r)
      else true
  | None => true
  end.

Definition column_ok (f : Evaluation -> string) (value : option string)
           (r : JoinedRecord) : bool :=
  match value with
  | Some v =>
      if Py.str_truthy value && negb (String.eqb v "All")
      then Pd.eq_str (col f r) v
      else true
  | None => true
  end.

Definition high_risk_ok (high_risk_only : bool) (r : JoinedRecord) : bool :=
  if high_risk_only then Pd.eq_bool (col is_high_risk_topic r) true else true.

(** The evaluations [get_messages_with_evals] fetches for its page. *)
Definition page_evaluations (limit offset : Z) (sd ed : option Z) (s : Store)
  : list Evaluation :=
  Query.message_id_in
    (map id (Query.page limit offset sd ed (juju_messages s)))
    (juju_evaluations s).

(** The messages [get_daily_metrics] fetches. *)
Definition daily_messages (now days : Z) (sd ed : option Z) (s : Store)
  : list Message :=
  Query.created_between (Some (Db.default_start now days sd)) ed
    (juju_messages s).

(** The number of records whose faithfulness score is exactly 0. *)
Definition zero_score_count (df : list (Message * Evaluation)) : Z :=
  Db.len
    (filter
       (fun r =>
          match faithfulness_score (snd r) with
          | Some q => Qeq_bool q 0
          | None => false
          end)
       df).

(* ===================================================================== *)
(** ** Facts about queries and merges *)
(* ===================================================================== *)

Lemma mem_In (x : Z) (l : list Z) : Query.mem x l = true <-> In x l.
Proof.
  induction l as [| y l IH]; simpl.
  - split; [discriminate | tauto].
  - rewrite orb_true_iff, Z.eqb_eq, IH. split; intros [H | H]; auto.
Qed.

Lemma insert_desc_In (m x : Message) (l : list Message) :
  In x (Query.insert_desc m l) <-> x = m \/ In x l.
Proof.
  induction l as [| y l IH]; simpl.
  - intuition.
  - destruct (created_at y <=? created_at m); simpl.
    + intuition.
    + rewrite IH. intuition.
Qed.

Lemma order_created_at_desc_In (x : Message) (rows : list Message) :
  In x (Query.order_created_at_desc rows) <-> In x rows.
Proof.
  unfold Query.order_created_at_desc.
  induction rows as [| m rows IH]; simpl.
  - tauto.
  - rewrite insert_desc_In, IH. intuition.
Qed.

Lemma gte_created_at_incl (d : option Z) (rows : list Message) :
  incl (Query.gte_created_at d rows) rows.
Proof.
  destruct d as [t |]; simpl; [apply incl_filter | apply incl_refl].
Qed.

Lemma lte_created_at_incl (d : option Z) (rows : list Message) :
  incl (Query.lte_created_at d rows) rows.
Proof.
  destruct d as [t |]; simpl; [apply incl_filter | apply incl_refl].
Qed.

Lemma created_between_incl (sd ed : option Z) (rows : list Message) :
  incl (Query.created_between sd ed rows) rows.
Proof.
  unfold Query.created_between.
  eapply incl_tran; [apply lte_created_at_incl | apply gte_created_at_incl].
Qed.

Lemma firstn_incl {A : Type} (n : nat) (l : list A) : incl (firstn n l) l.
Proof.
  intros x H. rewrite <- (firstn_skipn n l). apply in_or_app. now left.
Qed.

Lemma skipn_incl {A : Type} (n : nat) (l : list A) : incl (skipn n l) l.
Proof.
  intros x H. rewrite <- (firstn_skipn n l). apply in_or_app. now right.
Qed.

Lemma range_incl (from to : Z) (rows : list Message) :
  incl (Query.range from to rows) rows.
Proof.
  unfold Query.range. eapply incl_tran; [apply firstn_incl | apply skipn_incl].
Qed.

Lemma page_incl (limit offset : Z) (sd ed : option Z) (rows : list Message) :
  incl (Query.page limit offset sd ed rows) rows.
Proof.
  unfold Query.page. intros x H.
  apply range_incl in H. rewrite order_created_at_desc_In in H.
  now apply created_between_incl in H.
Qed.

Lemma evals_of_In (m : Message) (evals : list Evaluation) (e : Evaluation) :
  In e (evals_of m evals) <-> In e evals /\ message_id e = id m.
Proof.
  unfold evals_of. rewrite filter_In, Z.eqb_eq. tauto.
Qed.

Lemma merge_inner_In (msgs : list Message) (evals : list Evaluation)
      (m : Message) (e : Evaluation) :
  In (m, e) (merge_inner msgs evals)
  <-> In m msgs /\ In e evals /\ message_id e = id m.
Proof.
  unfold merge_inner. rewrite in_flat_map. split.
  - intros [m' [Hm H]]. apply in_map_iff in H. destruct H as [e' [Heq He]].
    inversion Heq; subst. apply evals_of_In in He. tauto.
  - intros [Hm [He Hid]]. exists m. split; [exact Hm |].
    apply in_map. apply evals_of_In. tauto.
Qed.

Lemma merge_left_In (msgs : list Message) (evals : list Evaluation)
      (r : JoinedRecord) :
  In r (merge_left msgs evals)
  <-> In (jr_message r) msgs
      /\ match jr_evaluation r with
         | Some e => In e (evals_of (jr_message r) evals)
         | None => evals_of (jr_message r) evals = []
         end.
Proof.
  unfold merge_left. rewrite in_flat_map. split.
  - intros [m [Hm H]]. destruct (evals_of m evals) as [| e es] eqn:E.
    + destruct H as [H | []]. subst r. simpl. auto.
    + apply in_map_iff in H. destruct H as [e' [Heq He]]. subst r. simpl.
      rewrite E. auto.
  - destruct r as [m o]. simpl. intros [Hm H]. exists m. split; [exact Hm |].
    destruct o as [e |].
    + destruct (evals_of m evals) as [| e0 es]; [destruct H |].
      apply (in_map (fun e' => mkJoined m (Some e'))) in H. exact H.
    + rewrite H. now left.
Qed.

(** Asking only for the evaluations of the page's messages does not change
    what each message is joined with. *)
Lemma evals_of_message_id_in (msgs : list Message) (evals : list Evaluation)
      (m : Message) :
  In m msgs ->
  evals_of m (Query.message_id_in (map id msgs) evals) = evals_of m evals.
Proof.
  intros Hm. unfold evals_of, Query.message_id_in.
  induction evals as [| e evals IH]; simpl; [reflexivity |].
  destruct (Query.mem (message_id e) (map id msgs)) eqn:E; simpl.
  - rewrite IH. reflexivity.
  - destruct (message_id e =? id m) eqn:E'; [| exact IH].
    apply Z.eqb_eq in E'. exfalso.
    assert (H : Query.mem (message_id e) (map id msgs) = true)
      by (apply mem_In; rewrite E'; now apply in_map).
    congruence.
Qed.

Lemma empty_true {A : Type} (df : list A) : empty df = true <-> df = [].
Proof. destruct df; simpl; split; congruence. Qed.

Lemma dropna_nil {A : Type} (col : list (option A)) :
  Pd.dropna col = [] <-> forall c, In c col -> c = None.
Proof.
  induction col as [| [x |] col IH]; simpl.
  - split; [intros _ c [] | reflexivity].
  - split; [discriminate |]. intros H. specialize (H (Some x) (or_introl eq_refl)).
    discriminate.
  - rewrite IH. split.
    + intros H c [Hc | Hc]; [now subst | auto].
    + intros H c Hc. apply H. now right.
Qed.

Lemma mean_nan (col : list (option Q)) :
  Pd.mean col = Py.NaN <-> Pd.dropna col = [].
Proof.
  unfold Pd.mean. destruct (Pd.dropna col); split; congruence.
Qed.

Lemma Qltb_lt (x y : Q) : Py.Qltb x y = true <-> (x < y)%Q.
Proof.
  unfold Py.Qltb. rewrite negb_true_iff. split.
  - intros H. apply Qnot_le_lt. intros Hle.
    apply Qle_bool_iff in Hle. congruence.
  - intros H. destruct (Qle_bool y x) eqn:E; [| reflexivity].
    apply Qle_bool_iff in E. exfalso. exact (Qlt_not_le _ _ H E).
Qed.

(* ===================================================================== *)
(** ** Flag classifier *)
(* ===================================================================== *)

Lemma get_flagged_messages_result (limit : Z) (thr : Q) (sd ed : option Z)
      (s : Store) :
  Db.rows (result (Db.get_flagged_messages limit thr sd ed) s) =
  if empty (juju_evaluations s) then []
  else
    let flagged_evals := filter (Db.flag_mask thr) (juju_evaluations s) in
    if empty flagged_evals then []
    else
      if empty (flagged_messages_df limit thr sd ed s) then []
      else merge_inner (flagged_messages_df limit thr sd ed s) flagged_evals.
Proof.
  unfold result, Db.get_flagged_messages, bind, Query.execute_evaluations,
    Query.execute_messages, ret, flagged_messages_df.
  cbv zeta.
  destruct (empty (juju_evaluations s)); [reflexivity |].
  destruct (empty (filter (Db.flag_mask thr) (juju_evaluations s)));
    [reflexivity |].
  match goal with
  | |- context [empty ?df] => destruct (empty df)
  end; reflexivity.
Qed.

(** The evaluations table is read first, whatever the arguments. *)
Lemma get_flagged_messages_queries (limit : Z) (thr : Q) (sd ed : option Z)
      (s : Store) :
  exists l,
    queries (Db.get_flagged_messages limit thr sd ed) s = T_juju_evaluations :: l.
Proof.
  unfold queries, Db.get_flagged_messages, bind, Query.execute_evaluations,
    Query.execute_messages, ret.
  cbv zeta.
  destruct (empty (juju_evaluations s)); [now eexists |].
  destruct (empty (filter (Db.flag_mask thr) (juju_evaluations s)));
    [now eexists |].
  match goal with
  | |- context [empty ?df] => destruct (empty df)
  end; now eexists.
Qed.

Lemma get_flagged_messages_rows (limit : Z) (thr : Q) (sd ed : option Z)
      (s : Store) (m : Message) (e : Evaluation) :
  In (m, e) (Db.rows (result (Db.get_flagged_messages limit thr sd ed) s)) ->
  In m (juju_messages s) /\ In e (juju_evaluations s)
  /\ message_id e = id m /\ Db.flag_mask thr e = true.
Proof.
  rewrite get_flagged_messages_result. cbv zeta.
  destruct (empty (juju_evaluations s)); [intros [] |].
  destruct (empty (filter (Db.flag_mask thr) (juju_evaluations s)));
    [intros [] |].
  destruct (empty (flagged_messages_df limit thr sd ed s)); [intros [] |].
  intros H. apply merge_inner_In in H. destruct H as [Hm [He Hid]].
  apply filter_In in He. destruct He as [He Hmask].
  repeat split; auto.
  unfold flagged_messages_df, Query.limit in Hm. apply firstn_incl in Hm.
  rewrite order_created_at_desc_In in Hm. apply created_between_incl in Hm.
  unfold Query.id_in in Hm.
  apply filter_In in Hm. tauto.
Qed.

(** C5. A message with no evaluation row in the store never appears in the
    result of [get_flagged_messages], whatever the threshold, the limit and
    the date range. *)
Theorem unevaluated_message_never_flagged
        (limit : Z) (thr : Q) (sd ed : option Z) (s : Store) (m : Message)
        (Hnone : forall e, In e (juju_evaluations s) -> message_id e <> id m) :
  ~ In (id m)
      (map (fun r => id (fst r))
         (Db.rows (result (Db.get_flagged_messages limit thr sd ed) s))).
Proof.
  intros H. apply in_map_iff in H. destruct H as [[m' e] [Hid Hin]].
  simpl in Hid. apply get_flagged_messages_rows in Hin.
  destruct Hin as [_ [He [Hmid _]]].
  apply (Hnone e He). congruence.
Qed.

(** C5, at a store where message 2 has no evaluation row. *)
Lemma unevaluated_message_never_flagged_witness :
  ~ In (id Sample.m_export)
      (map (fun r => id (fst r))
         (Db.rows
            (result (Db.get_flagged_messages 100 (7 # 10) None None)
               Sample.store_half_evaluated))).
Proof.
  apply (unevaluated_message_never_flagged 100 (7 # 10) None None
           Sample.store_half_evaluated Sample.m_export).
  intros e [He | []]. subst e. simpl. discriminate.
Defined.

(** C4, as stated, fails above 1: with threshold 2 the null score, read
    as 1, is below the threshold, and the record is returned as flagged
    although it raises no other flag. *)
Lemma null_score_flagged_above_one :
  faithfulness_score Sample.e_null = None
  /\ Db.mask_low_faithfulness 2 Sample.e_null = true
  /\ Db.rows
       (result (Db.get_flagged_messages 100 2 None None)
          Sample.store_null_score)
     = [(Sample.m_refund, Sample.e_null)].
Proof. repeat split. Qed.

(** C4, amended. A null faithfulness score is read as 1: the low
    faithfulness disjunct of the flag mask holds exactly when the threshold
    is greater than 1, hence never for a threshold of at most 1. *)
Theorem null_score_counts_as_one
        (thr : Q) (e : Evaluation) (Hnull : faithfulness_score e = None) :
  Db.mask_low_faithfulness thr e = true <-> (1 < thr)%Q.
Proof.
  unfold Db.mask_low_faithfulness. rewrite Hnull. simpl. apply Qltb_lt.
Qed.

Lemma null_score_counts_as_one_witness :
  Db.mask_low_faithfulness (7 # 10) Sample.e_null = true <-> (1 < 7 # 10)%Q.
Proof.
  apply (null_score_counts_as_one (7 # 10) Sample.e_null). reflexivity.
Defined.

(** C7, as stated, fails for [get_flagged_messages]: called with
    threshold 2 it raises nothing, queries both tables and returns rows. *)
Lemma get_flagged_messages_takes_any_threshold :
  ~ (0 <= 2 /\ 2 <= 1)%Q
  /\ Db.rows
       (result (Db.get_flagged_messages 100 2 None None)
          Sample.store_null_score)
     = [(Sample.m_refund, Sample.e_null)]
  /\ queries (Db.get_flagged_messages 100 2 None None) Sample.store_null_score
     = [T_juju_evaluations; T_juju_messages].
Proof.
  split; [| split; reflexivity].
  intros [_ H]. revert H. apply Qlt_not_le. reflexivity.
Qed.

Lemma threshold_valid_iff (thr : Q) :
  Main.threshold_valid thr = true <-> (0 <= thr /\ thr <= 1)%Q.
Proof.
  unfold Main.threshold_valid.
  rewrite andb_true_iff, !Qle_bool_iff. tauto.
Qed.

(** C7, amended. The bounds on the threshold are checked by the
    [/flagged] route only: for a threshold outside [0,1] the route answers
    with a validation error and no query is made, while
    [get_flagged_messages] itself checks nothing and starts by reading the
    evaluations table. *)
Theorem threshold_checked_by_route_only
        (now limit : Z) (range_str : string) (thr : Q) (sd ed : option Z)
        (s : Store) (Hout : ~ (0 <= thr /\ thr <= 1)%Q) :
  Main.flagged_page now range_str thr s = (Main.RequestValidationError, [])
  /\ exists l,
       queries (Db.get_flagged_messages limit thr sd ed) s
       = T_juju_evaluations :: l.
Proof.
  split; [| apply get_flagged_messages_queries].
  unfold Main.flagged_page.
  destruct (Main.threshold_valid thr) eqn:E; [| reflexivity].
  apply threshold_valid_iff in E. contradiction.
Qed.

Lemma threshold_checked_by_route_only_witness :
  Main.flagged_page 0 "30d" 2 Sample.store_null_score
  = (Main.RequestValidationError, [])
  /\ exists l,
       queries (Db.get_flagged_messages 100 2 None None) Sample.store_null_score
       = T_juju_evaluations :: l.
Proof.
  apply (threshold_checked_by_route_only 0 100 "30d" 2 None None
           Sample.store_null_score).
  intros [_ H]. revert H. apply Qlt_not_le. reflexivity.
Defined.

(* ===================================================================== *)
(** ** Join and filter *)
(* ===================================================================== *)

Lemma get_messages_result (contains : string -> string -> bool)
      (limit offset : Z) (search : option string) (sd ed : option Z)
      (s : Store) :
  result (Db.get_messages contains limit offset search sd ed) s =
  let df := Query.page limit offset sd ed (juju_messages s) in
  match search with
  | Some pat =>
      if Py.str_truthy search && negb (empty df)
      then filter (Db.search_mask contains pat) df
      else df
  | None => df
  end.
Proof.
  unfold result, Db.get_messages, bind, Query.execute_messages, ret.
  cbv zeta. destruct search as [pat |]; [| reflexivity].
  match goal with
  | |- context [if ?b then _ else _] => destruct b
  end; reflexivity.
Qed.

Lemma get_messages_with_evals_result (contains : string -> string -> bool)
      (limit offset : Z) (search : option string) (sd ed : option Z)
      (qt cx : option string) (hr : bool) (s : Store) :
  result (Db.get_messages_with_evals contains limit offset search sd ed qt cx hr) s =
  let messages_df := Query.page limit offset sd ed (juju_messages s) in
  if empty messages_df then []
  else
    let evals_df :=
      Query.message_id_in (map id messages_df) (juju_evaluations s) in
    if empty evals_df then map (fun m => mkJoined m None) messages_df
    else
      Db.filter_high_risk hr
        (Db.filter_column question_complexity cx
           (Db.filter_column question_type qt
              (Db.filter_search contains search
                 (merge_left messages_df evals_df)))).
Proof.
  unfold result, Db.get_messages_with_evals, bind, Query.execute_messages,
    Query.execute_evaluations, ret.
  cbv zeta.
  destruct (empty (Query.page limit offset sd ed (juju_messages s)));
    [reflexivity |].
  match goal with
  | |- context [empty ?df] => destruct (empty df)
  end; reflexivity.
Qed.

Lemma merge_left_no_evals (msgs : list Message) :
  merge_left msgs [] = map (fun m => mkJoined m None) msgs.
Proof.
  unfold merge_left. induction msgs as [| m msgs IH]; simpl; [reflexivity |].
  now rewrite <- IH.
Qed.

Lemma map_const_repeat {A B : Type} (b : B) (l : list A) :
  map (fun _ => b) l = repeat b (List.length l).
Proof.
  induction l as [| a l IH]; simpl; [reflexivity | now rewrite IH].
Qed.

(** The message column of a left join: the left rows in their order, each
    once per matching evaluation and once when it has none. *)
Lemma merge_left_messages (msgs : list Message) (evals : list Evaluation) :
  map jr_message (merge_left msgs evals)
  = flat_map
      (fun m => repeat m (Nat.max 1 (List.length (evals_of m evals)))) msgs.
Proof.
  unfold merge_left. induction msgs as [| m msgs IH]; [reflexivity |].
  cbn [flat_map]. rewrite map_app, IH. f_equal.
  destruct (evals_of m evals) as [| e es]; [reflexivity |].
  rewrite map_map. cbn [jr_message]. rewrite map_const_repeat.
  reflexivity.
Qed.

Lemma filter_search_incl (contains : string -> string -> bool)
      (search : option string) (merged : list JoinedRecord) :
  incl (Db.filter_search contains search merged) merged.
Proof.
  unfold Db.filter_search. destruct search as [pat |]; [| apply incl_refl].
  destruct (Py.str_truthy (Some pat)); [apply incl_filter | apply incl_refl].
Qed.

Lemma filter_column_incl (f : Evaluation -> string) (value : option string)
      (merged : list JoinedRecord) :
  incl (Db.filter_column f value merged) merged.
Proof.
  unfold Db.filter_column. destruct value as [v |]; [| apply incl_refl].
  match goal with
  | |- context [if ?b then _ else _] => destruct b
  end; [apply incl_filter | apply incl_refl].
Qed.

Lemma filter_high_risk_incl (hr : bool) (merged : list JoinedRecord) :
  incl (Db.filter_high_risk hr merged) merged.
Proof.
  unfold Db.filter_high_risk. destruct hr; [apply incl_filter | apply incl_refl].
Qed.

(** The question type filter where it is applied: once at least one
    evaluation was fetched for the page, a filter value other than the
    empty string and ["All"] keeps only evaluated records of that type. *)
Lemma question_type_filter_with_evals (contains : string -> string -> bool)
      (limit offset : Z) (search : option string) (sd ed : option Z)
      (v : string) (cx : option string) (hr : bool) (s : Store)
      (r : JoinedRecord) :
  Query.message_id_in
    (map id (Query.page limit offset sd ed (juju_messages s)))
    (juju_evaluations s) <> [] ->
  v <> ""%string -> v <> "All"%string ->
  In r (result (Db.get_messages_with_evals contains limit offset search sd ed
                  (Some v) cx hr) s) ->
  exists e, jr_evaluation r = Some e /\ question_type e = v.
Proof.
  intros Hev Hne Hall. rewrite get_messages_with_evals_result. cbv zeta.
  destruct (empty (Query.page limit offset sd ed (juju_messages s)));
    [intros [] |].
  match goal with
  | |- context [empty ?df] => destruct (empty df) eqn:E
  end.
  - apply empty_true in E. contradiction.
  - intros H. apply filter_high_risk_incl in H. apply filter_column_incl in H.
    unfold Db.filter_column in H.
    assert (Hb : Py.str_truthy (Some v) && negb (String.eqb v "All") = true).
    { apply andb_true_iff. split; simpl; apply negb_true_iff;
        apply String.eqb_neq; assumption. }
    rewrite Hb in H. apply filter_In in H. destruct H as [_ H].
    unfold col in H. destruct (jr_evaluation r) as [e |]; simpl in H;
      [| discriminate].
    exists e. split; [reflexivity |]. now apply String.eqb_eq.
Qed.

Lemma no_criteria_result (contains : string -> string -> bool)
      (limit offset : Z) (sd ed : option Z) (s : Store) :
  result (Db.get_messages_with_evals contains limit offset None sd ed
            None None false) s
  = merge_left (Query.page limit offset sd ed (juju_messages s))
      (Query.message_id_in
         (map id (Query.page limit offset sd ed (juju_messages s)))
         (juju_evaluations s)).
Proof.
  rewrite get_messages_with_evals_result. cbv zeta.
  destruct (empty (Query.page limit offset sd ed (juju_messages s))) eqn:E1.
  - apply empty_true in E1. rewrite E1. reflexivity.
  - match goal with
    | |- context [empty ?df] => destruct (empty df) eqn:E2
    end.
    + apply empty_true in E2. rewrite E2. symmetry. apply merge_left_no_evals.
    + reflexivity.
Qed.

(** C8. With every criterion absent, [get_messages_with_evals] returns the
    whole left join of the fetched page with its evaluations: every message
    of the page is represented, and the messages come in the order of the
    page (newest first), each once per evaluation it has and once when it
    has none. *)
Theorem no_criteria_returns_full_join_in_order
        (contains : string -> string -> bool) (limit offset : Z)
        (sd ed : option Z) (s : Store) :
  let messages := Query.page limit offset sd ed (juju_messages s) in
  let evaluations :=
    Query.message_id_in (map id messages) (juju_evaluations s) in
  let joined :=
    result (Db.get_messages_with_evals contains limit offset None sd ed
              None None false) s in
  joined = merge_left messages evaluations
  /\ (forall m, In m messages <-> In m (map jr_message joined))
  /\ map jr_message joined
     = flat_map
         (fun m => repeat m (Nat.max 1 (List.length (evals_of m evaluations))))
         messages.
Proof.
  intros messages evaluations joined.
  assert (Hj : joined = merge_left messages evaluations)
    by apply no_criteria_result.
  split; [exact Hj |].
  assert (Hm := merge_left_messages messages evaluations).
  rewrite <- Hj in Hm. split; [| exact Hm].
  intros m. rewrite Hm, in_flat_map. split.
  - intros H. exists m. split; [exact H |].
    destruct (List.length (evals_of m evaluations)); simpl; now left.
  - intros [m' [Hin Hrep]]. apply repeat_spec in Hrep. now subst.
Qed.

Lemma repeat_once (page msgs : list Message) (evals : list Evaluation) :
  (forall m, (List.length (evals_of m evals) <= 1)%nat) ->
  incl msgs page ->
  flat_map
    (fun m =>
       repeat m
         (Nat.max 1
            (List.length
               (evals_of m (Query.message_id_in (map id page) evals)))))
    msgs
  = msgs.
Proof.
  intros Huniq. induction msgs as [| m l IH]; intros Hsub; [reflexivity |].
  cbn [flat_map].
  rewrite IH by (intros x Hx; apply Hsub; now right).
  rewrite evals_of_message_id_in by (apply Hsub; now left).
  specialize (Huniq m).
  destruct (List.length (evals_of m evals)) as [| [| n]];
    simpl; [reflexivity | reflexivity | lia].
Qed.

(** X26. With at most one evaluation row per message and no criteria,
    [get_messages_with_evals] returns exactly one row per message of the
    fetched page, in the order of the page. *)
Corollary no_criteria_one_to_one
          (contains : string -> string -> bool) (limit offset : Z)
          (sd ed : option Z) (s : Store) :
  (forall m, (List.length (evals_of m (juju_evaluations s)) <= 1)%nat) ->
  map jr_message
    (result (Db.get_messages_with_evals contains limit offset None sd ed
               None None false) s)
  = Query.page limit offset sd ed (juju_messages s).
Proof.
  intros Huniq. rewrite no_criteria_result, merge_left_messages.
  apply repeat_once; [exact Huniq | apply incl_refl].
Qed.

(** C3, at the failing input. Two messages, no evaluation in the store,
    question type filter ["how_to"]: the early return on an empty
    evaluation frame hands back both messages, neither of which has an
    evaluation; the specification asks for the empty result. *)
Theorem question_type_filter_skipped_without_evals
        (contains : string -> string -> bool) :
  juju_evaluations Sample.store_no_evals = []
  /\ result (Db.get_messages_with_evals contains 25 0 None None None
              (Some "how_to"%string) None false) Sample.store_no_evals
     = [mkJoined Sample.m_export None; mkJoined Sample.m_refund None].
Proof. split; reflexivity. Qed.

Lemma get_messages_with_evals_in_page (contains : string -> string -> bool)
      (limit offset : Z) (search : option string) (sd ed : option Z)
      (qt cx : option string) (hr : bool) (s : Store) :
  incl
    (map jr_message
       (result (Db.get_messages_with_evals contains limit offset search sd ed
                  qt cx hr) s))
    (Query.page limit offset sd ed (juju_messages s)).
Proof.
  rewrite get_messages_with_evals_result. cbv zeta.
  destruct (empty (Query.page limit offset sd ed (juju_messages s)));
    [intros x [] |].
  match goal with
  | |- context [empty ?df] => destruct (empty df)
  end.
  - rewrite map_map. simpl. rewrite map_id. apply incl_refl.
  - intros x H. apply in_map_iff in H. destruct H as [r [Hx H]]. subst x.
    apply filter_high_risk_incl in H. apply filter_column_incl in H.
    apply filter_column_incl in H. apply filter_search_incl in H.
    apply merge_left_In in H. tauto.
Qed.

Lemma get_messages_in_page (contains : string -> string -> bool)
      (limit offset : Z) (search : option string) (sd ed : option Z)
      (s : Store) :
  incl (result (Db.get_messages contains limit offset search sd ed) s)
    (Query.page limit offset sd ed (juju_messages s)).
Proof.
  rewrite get_messages_result. cbv zeta.
  destruct search as [pat |]; [| apply incl_refl].
  match goal with
  | |- context [if ?b then _ else _] => destruct b
  end; [apply incl_filter | apply incl_refl].
Qed.

(** C10, at the failing input. Four messages, none evaluated, a page of
    2 and the search text ["refund"]: [get_messages_with_evals] returns the
    two newest messages although neither of them matches, because the early
    return on an empty evaluation frame comes before the search mask; the
    specification asks for the search to be applied to the fetched page, as
    [get_messages] does on the same input, where nothing is returned. *)
Theorem search_skipped_without_evaluations :
  juju_evaluations Sample.store_search = []
  /\ result (Db.get_messages_with_evals Sample.icontains 2 0
               (Some "refund"%string) None None None None false)
       Sample.store_search
     = [mkJoined Sample.m_world None; mkJoined Sample.m_hello None]
  /\ Db.search_mask Sample.icontains "refund" Sample.m_world = false
  /\ Db.search_mask Sample.icontains "refund" Sample.m_hello = false
  /\ result (Db.get_messages Sample.icontains 2 0 (Some "refund"%string)
               None None) Sample.store_search
     = [].
Proof. repeat split. Qed.

(* ===================================================================== *)
(** ** Metrics summary and daily series *)
(* ===================================================================== *)

Lemma summary_avg_faithfulness (now : Z) (sd ed : option Z) (s : Store) :
  Db.avg_faithfulness (result (Db.get_metrics_summary now sd ed) s) =
  let messages_df := Query.created_between sd ed (juju_messages s) in
  if empty messages_df then Py.Num 0
  else
    let evals_df :=
      Query.message_id_in (map id messages_df) (juju_evaluations s) in
    Py.round
      (Py.or_
         (if negb (empty evals_df)
          then Pd.mean (map faithfulness_score evals_df)
          else Py.Num 0)
         0)
      3.
Proof.
  unfold result, Db.get_metrics_summary, bind, Query.execute_messages,
    Query.execute_evaluations, ret.
  cbv zeta.
  destruct (empty (Query.created_between sd ed (juju_messages s)));
    [reflexivity |].
  match goal with
  | |- context [empty ?df] => destruct (empty df)
  end; reflexivity.
Qed.

Lemma get_daily_metrics_result (now days : Z) (sd ed : option Z) (s : Store) :
  result (Db.get_daily_metrics now days sd ed) s =
  let messages_df :=
    Query.created_between (Some (Db.default_start now days sd)) ed
      (juju_messages s) in
  if empty messages_df then []
  else
    let evals_df :=
      Query.message_id_in (map id messages_df) (juju_evaluations s) in
    Db.groupby_date_agg
      (if negb (empty evals_df)
       then map Db.daily_row (merge_left messages_df evals_df)
       else map Db.daily_row_no_evals messages_df).
Proof.
  unfold result, Db.get_daily_metrics, bind, Query.execute_messages,
    Query.execute_evaluations, ret.
  cbv zeta.
  match goal with
  | |- context [empty ?df] => destruct (empty df)
  end; reflexivity.
Qed.

Lemma message_id_in_incl (ids : list Z) (evals : list Evaluation) :
  incl (Query.message_id_in ids evals) evals.
Proof. apply incl_filter. Qed.

(** A bucket of the grouped frame is the aggregate of the rows of its
    date. *)
Lemma groupby_date_agg_In (merged : list Db.DailyRow) (b : Db.DayBucket) :
  In b (Db.groupby_date_agg merged) ->
  b = Db.aggregate (Db.date b) (Db.group (Db.date b) merged).
Proof.
  unfold Db.groupby_date_agg. intros H. apply in_map_iff in H.
  destruct H as [d [Hb _]]. subst b. reflexivity.
Qed.

(** The faithfulness cells of the frame [get_daily_metrics] groups come
    from the evaluations of the store, row by row. *)
Lemma daily_faithfulness_cell (msgs : list Message) (evals : list Evaluation)
      (r : Db.DailyRow) (q : Q) :
  In r (map Db.daily_row (merge_left msgs evals)) ->
  Db.d_faithfulness_score r = Some q ->
  exists m e,
    In m msgs /\ In e evals /\ message_id e = id m
    /\ Db.date_of (created_at m) = Db.d_date r
    /\ faithfulness_score e = Some q.
Proof.
  intros H Hq. apply in_map_iff in H. destruct H as [jr [Hr H]]. subst r.
  apply merge_left_In in H. destruct H as [Hm He].
  unfold Db.daily_row, col_opt in Hq. simpl in Hq.
  destruct (jr_evaluation jr) as [e |]; [| discriminate].
  apply evals_of_In in He. destruct He as [He Hid].
  exists (jr_message jr), e. simpl. auto.
Qed.

Lemma daily_bucket_nan (now days : Z) (sd ed : option Z) (s : Store)
      (b : Db.DayBucket) :
  In b (result (Db.get_daily_metrics now days sd ed) s) ->
  (forall m e,
      In m (Query.created_between (Some (Db.default_start now days sd)) ed
              (juju_messages s)) ->
      In e (juju_evaluations s) ->
      message_id e = id m -> Db.date_of (created_at m) = Db.date b ->
      faithfulness_score e = None) ->
  Db.b_avg_faithfulness b = Py.NaN.
Proof.
  rewrite get_daily_metrics_result. cbv zeta.
  set (msgs := Query.created_between (Some (Db.default_start now days sd)) ed
                 (juju_messages s)).
  set (evals := Query.message_id_in (map id msgs) (juju_evaluations s)).
  destruct (empty msgs); [intros [] |].
  intros Hb Hnull. apply groupby_date_agg_In in Hb. rewrite Hb.
  unfold Db.aggregate. simpl. apply mean_nan. apply dropna_nil.
  intros c Hc. apply in_map_iff in Hc. destruct Hc as [r [Hc Hr]].
  unfold Db.group in Hr. apply filter_In in Hr. destruct Hr as [Hr Hd].
  apply Z.eqb_eq in Hd.
  destruct c as [q |]; [exfalso | reflexivity].
  destruct (negb (empty evals)).
  - destruct (daily_faithfulness_cell msgs evals r q Hr Hc)
      as [m [e [Hm [He [Hid [Hdate Hq]]]]]].
    apply message_id_in_incl in He.
    rewrite (Hnull m e Hm He Hid) in Hq; [discriminate | congruence].
  - apply in_map_iff in Hr. destruct Hr as [m [Hr _]]. subst r. discriminate.
Qed.

Lemma message_id_in_nil (msgs : list Message) (evals : list Evaluation) :
  (forall m e, In m msgs -> In e evals -> message_id e <> id m) ->
  Query.message_id_in (map id msgs) evals = [].
Proof.
  intros H. unfold Query.message_id_in.
  induction evals as [| e evals IH]; simpl; [reflexivity |].
  destruct (Query.mem (message_id e) (map id msgs)) eqn:E.
  - apply mem_In in E. apply in_map_iff in E. destruct E as [m [Hid Hm]].
    exfalso. apply (H m e Hm (or_introl eq_refl)). congruence.
  - apply IH. intros m e' Hm He'. apply H; [exact Hm | now right].
Qed.

Lemma summary_zero_without_evals (now : Z) (sd ed : option Z) (s : Store) :
  (forall m e,
      In m (Query.created_between sd ed (juju_messages s)) ->
      In e (juju_evaluations s) -> message_id e <> id m) ->
  Db.avg_faithfulness (result (Db.get_metrics_summary now sd ed) s) = Py.Num 0.
Proof.
  intros H. rewrite summary_avg_faithfulness. cbv zeta.
  destruct (empty (Query.created_between sd ed (juju_messages s)));
    [reflexivity |].
  rewrite (message_id_in_nil _ _ H). reflexivity.
Qed.

(** C9. A day bucket of [get_daily_metrics] whose rows carry no non-null
    faithfulness score has [nan] as its average, not 0; the summary of
    [get_metrics_summary] over messages none of which has an evaluation has
    0 as its average. Both hold of the same code. *)
Theorem daily_average_nan_where_summary_is_zero :
  (forall now days sd ed s b,
      In b (result (Db.get_daily_metrics now days sd ed) s) ->
      (forall m e,
          In m (Query.created_between (Some (Db.default_start now days sd)) ed
                  (juju_messages s)) ->
          In e (juju_evaluations s) ->
          message_id e = id m -> Db.date_of (created_at m) = Db.date b ->
          faithfulness_score e = None) ->
      Db.b_avg_faithfulness b = Py.NaN)
  /\ (forall now sd ed s,
         (forall m e,
             In m (Query.created_between sd ed (juju_messages s)) ->
             In e (juju_evaluations s) -> message_id e <> id m) ->
         Db.avg_faithfulness (result (Db.get_metrics_summary now sd ed) s)
         = Py.Num 0).
Proof.
  split.
  - exact daily_bucket_nan.
  - exact summary_zero_without_evals.
Qed.

(** C9 on the two unevaluated messages of one day: the one bucket of the
    daily series averages to [nan], the summary to 0. *)
Lemma daily_average_nan_where_summary_is_zero_witness :
  (exists b,
      In b (result (Db.get_daily_metrics (Sample.day 11) 30 None None)
              Sample.store_no_evals)
      /\ Db.message_count b = 2
      /\ Db.b_avg_faithfulness b = Py.NaN)
  /\ Db.avg_faithfulness
       (result (Db.get_metrics_summary (Sample.day 11) None None)
          Sample.store_no_evals)
     = Py.Num 0.
Proof.
  destruct daily_average_nan_where_summary_is_zero as [Hdaily Hsummary].
  split.
  - eexists. split; [left; reflexivity |]. split; [reflexivity |].
    apply (Hdaily (Sample.day 11) 30 None None Sample.store_no_evals).
    + left. reflexivity.
    + intros m e _ [].
  - apply Hsummary. intros m e _ [].
Defined.

(** When evaluations were fetched and every faithfulness score among them
    is null, the mean is [nan], [nan or 0] is [nan] because [nan] is
    truthy, and rounding keeps it. *)
Lemma summary_nan_when_all_scores_null (now : Z) (sd ed : option Z) (s : Store) :
  Query.created_between sd ed (juju_messages s) <> [] ->
  Query.message_id_in
    (map id (Query.created_between sd ed (juju_messages s)))
    (juju_evaluations s) <> [] ->
  (forall e, In e (juju_evaluations s) -> faithfulness_score e = None) ->
  Db.avg_faithfulness (result (Db.get_metrics_summary now sd ed) s) = Py.NaN.
Proof.
  intros Hm He Hnull. rewrite summary_avg_faithfulness. cbv zeta.
  destruct (empty (Query.created_between sd ed (juju_messages s))) eqn:E1;
    [apply empty_true in E1; contradiction |].
  match goal with
  | |- context [empty ?df] => destruct (empty df) eqn:E2
  end; [apply empty_true in E2; contradiction |].
  simpl negb. cbv iota.
  match goal with
  | |- context [Pd.mean ?c] => assert (Hmean : Pd.mean c = Py.NaN)
  end.
  { apply mean_nan. apply dropna_nil. intros c Hc.
    apply in_map_iff in Hc. destruct Hc as [e [Hc Hin]]. subst c.
    apply Hnull. now apply message_id_in_incl in Hin. }
  rewrite Hmean. reflexivity.
Qed.

(** C1, at the failing input. One message whose only evaluation has a
    null faithfulness score: the summary's average is [nan], where the
    specification asks for 0. *)
Theorem summary_avg_faithfulness_nan_on_null_scores :
  map faithfulness_score (juju_evaluations Sample.store_null_score) = [None]
  /\ Db.avg_faithfulness
       (result (Db.get_metrics_summary (Sample.day 11) None None)
          Sample.store_null_score)
     = Py.NaN.
Proof. split; reflexivity. Qed.

(** The hallucination rate of a bucket divides by the number of rows of
    the day. *)
Lemma daily_rate_over_all_rows (merged : list Db.DailyRow) (b : Db.DayBucket) :
  In b (Db.groupby_date_agg merged) ->
  Db.b_hallucination_rate b
  = Db.hallucination_agg
      (map Db.d_hallucination_detected (Db.group (Db.date b) merged))
  /\ Db.message_count b
     = Db.len (map Db.d_hallucination_detected (Db.group (Db.date b) merged)).
Proof.
  intros H. apply groupby_date_agg_In in H. rewrite H at 1 3.
  unfold Db.aggregate, Db.len. simpl. now rewrite length_map.
Qed.

(** C2, at the failing input. Two messages of one day, the first with an
    evaluation that detected a hallucination, the second with none: the
    bucket's rate is 1 of 2 rows, 50, where the specification asks for 1 of 1
    evaluated row, 100. *)
Theorem daily_hallucination_rate_counts_unevaluated_rows :
  exists b,
    result (Db.get_daily_metrics (Sample.day 11) 30 None None)
      Sample.store_half_evaluated = [b]
    /\ Db.message_count b = 2
    /\ (Db.b_hallucination_rate b == 50)%Q
    /\ (Rules.hallucination_rate_pct
          (map (col hallucination_detected)
             (merge_left (juju_messages Sample.store_half_evaluated)
                (juju_evaluations Sample.store_half_evaluated)))
        == 100)%Q.
Proof.
  eexists. split; [reflexivity |]. repeat split.
Qed.

(** C6, at the failing input. One flagged record whose faithfulness score
    is exactly 0, threshold 0.7: the route counts no low faithfulness
    record, because [0.0 or 1] is 1; the rule counts one, and so does the
    issue summary of the Streamlit page. *)
Theorem low_faith_count_misses_score_zero :
  exists ctx,
    result (Main.flagged_page (Sample.day 11) "30d" (7 # 10))
      Sample.store_zero_score = Main.TemplateResponse ctx
    /\ Main.flagged ctx = [(Sample.m_refund, Sample.e_zero)]
    /\ Main.ctx_low_faith_count ctx = 0
    /\ Rules.low_faithfulness_count (7 # 10) (Main.flagged ctx) = 1
    /\ FlaggedIssues.low_faith_count (7 # 10) (Main.flagged ctx) = 1.
Proof.
  eexists. split; [reflexivity |]. repeat split.
Qed.

(* ===================================================================== *)
(** ** Where the counts and averages agree with the rules *)
(* ===================================================================== *)

(** The issue summary of the Streamlit page counts low faithfulness as the
    rule words it. *)
Lemma page_low_faith_count_is_rule (thr : Q) (df : list (Message * Evaluation)) :
  FlaggedIssues.low_faith_count thr df = Rules.low_faithfulness_count thr df.
Proof. reflexivity. Qed.

(** The count of the [/flagged] route, for a threshold the route accepts:
    the records with a non-null, non-zero score below the threshold. *)
Lemma route_low_faith_count (object : bool) (thr : Q)
      (flagged : list (Message * Evaluation)) :
  (thr <= 1)%Q ->
  Main.low_faith_count object thr flagged
  = Db.len
      (filter
         (fun m =>
            match faithfulness_score (snd m) with
            | Some q => negb (Qeq_bool q 0) && Py.Qltb q thr
            | None => false
            end)
         flagged).
Proof.
  intros Hthr. unfold Main.low_faith_count. f_equal. apply filter_ext.
  intros m. unfold Main.faithfulness_cell, Pd.to_dict_cell.
  assert (H1 : Py.Qltb 1 thr = false).
  { destruct (Py.Qltb 1 thr) eqn:E; [| reflexivity].
    apply Qltb_lt in E. exfalso. exact (Qlt_not_le _ _ E Hthr). }
  destruct (faithfulness_score (snd m)) as [q |].
  - unfold Py.obj_or. simpl. destruct (Qeq_bool q 0); simpl; [exact H1 | reflexivity].
  - destruct object; simpl; [exact H1 | reflexivity].
Qed.

Lemma sum_bool_zero (x : list (option bool)) :
  (forall c, In c x -> c <> Some true) -> Pd.sum_bool x = 0.
Proof.
  intros H. unfold Pd.sum_bool.
  induction x as [| [[|] |] x IH]; simpl.
  - reflexivity.
  - exfalso. apply (H (Some true)); [now left | reflexivity].
  - apply IH. intros c Hc. apply H. now right.
  - apply IH. intros c Hc. apply H. now right.
Qed.

(** X25. A day bucket none of whose messages has an evaluation row has
    hallucination rate 0. *)
Lemma daily_rate_zero_without_evaluations (now days : Z) (sd ed : option Z)
      (s : Store) (b : Db.DayBucket) :
  In b (result (Db.get_daily_metrics now days sd ed) s) ->
  (forall m e,
      In m (Query.created_between (Some (Db.default_start now days sd)) ed
              (juju_messages s)) ->
      In e (juju_evaluations s) ->
      Db.date_of (created_at m) = Db.date b -> message_id e <> id m) ->
  (Db.b_hallucination_rate b == 0)%Q.
Proof.
  rewrite get_daily_metrics_result. cbv zeta.
  set (msgs := Query.created_between (Some (Db.default_start now days sd)) ed
                 (juju_messages s)).
  set (evals := Query.message_id_in (map id msgs) (juju_evaluations s)).
  destruct (empty msgs); [intros [] |].
  intros Hb Hnone. apply groupby_date_agg_In in Hb. rewrite Hb.
  unfold Db.aggregate, Db.hallucination_agg. simpl.
  match goal with
  | |- context [Pd.sum_bool ?x] => assert (Hs : Pd.sum_bool x = 0)
  end.
  { apply sum_bool_zero. intros c Hc Htrue. subst c.
    apply in_map_iff in Hc. destruct Hc as [r [Hc Hr]].
    unfold Db.group in Hr. apply filter_In in Hr. destruct Hr as [Hr Hd].
    apply Z.eqb_eq in Hd.
    destruct (negb (empty evals)).
    - apply in_map_iff in Hr. destruct Hr as [jr [Hjr Hin]]. subst r.
      apply merge_left_In in Hin. destruct Hin as [Hm He].
      unfold Db.daily_row, col in Hc. simpl in Hc, Hd.
      destruct (jr_evaluation jr) as [e |]; [| discriminate].
      apply evals_of_In in He. destruct He as [He Hid].
      apply message_id_in_incl in He.
      exact (Hnone (jr_message jr) e Hm He Hd Hid).
    - apply in_map_iff in Hr. destruct Hr as [m [Hr _]]. subst r.
      discriminate. }
  rewrite Hs.
  match goal with
  | |- context [if ?c then _ else _] => destruct c
  end; [| reflexivity].
  unfold Qeq, Qdiv, Qmult. simpl. reflexivity.
Qed.

(* ===================================================================== *)
(** ** The message page *)
(* ===================================================================== *)

Lemma created_between_In (sd ed : option Z) (rows : list Message) (m : Message) :
  In m (Query.created_between sd ed rows)
  <-> In m rows /\ in_dates sd ed m = true.
Proof.
  unfold Query.created_between, Query.lte_created_at, Query.gte_created_at,
    in_dates.
  destruct sd as [t1 |], ed as [t2 |]; rewrite ?filter_In, ?andb_true_iff;
    tauto.
Qed.

Lemma page_length (limit offset : Z) (sd ed : option Z) (rows : list Message) :
  Z.of_nat (List.length (Query.page limit offset sd ed rows)) <= Z.max 0 limit.
Proof.
  unfold Query.page, Query.range.
  replace (offset + limit - 1 - offset + 1) with limit by lia.
  match goal with
  | |- context [firstn ?n ?l] => pose proof (firstn_le_length n l) as H
  end.
  lia.
Qed.

Lemma filter_length_le {A : Type} (f : A -> bool) (l : list A) :
  (List.length (filter f l) <= List.length l)%nat.
Proof.
  induction l as [| a l IH]; simpl; [lia |]. destruct (f a); simpl; lia.
Qed.

Lemma insert_desc_sorted (m : Message) (l : list Message) :
  StronglySorted newer_or_equal l ->
  StronglySorted newer_or_equal (Query.insert_desc m l).
Proof.
  induction 1 as [| x l Hs IH Hx]; simpl.
  - constructor; constructor.
  - destruct (created_at x <=? created_at m) eqn:E.
    + apply Z.leb_le in E. constructor; [now constructor |].
      constructor; [exact E |].
      eapply Forall_impl; [| exact Hx]. unfold newer_or_equal. intros; lia.
    + apply Z.leb_gt in E. constructor; [exact IH |].
      apply Forall_forall. intros y Hy. apply insert_desc_In in Hy.
      destruct Hy as [-> | Hy].
      * unfold newer_or_equal. lia.
      * rewrite Forall_forall in Hx. now apply Hx.
Qed.

Lemma order_created_at_desc_sorted (rows : list Message) :
  StronglySorted newer_or_equal (Query.order_created_at_desc rows).
Proof.
  unfold Query.order_created_at_desc.
  induction rows as [| m rows IH]; simpl; [constructor |].
  now apply insert_desc_sorted.
Qed.

Section SortedSublists.

Variable A : Type.
Variable R : A -> A -> Prop.

Lemma sorted_skipn (n : nat) (l : list A) :
  StronglySorted R l -> StronglySorted R (skipn n l).
Proof.
  revert l. induction n as [| n IH]; intros l H; [exact H |].
  destruct l as [| a l]; [constructor |]. simpl. apply IH.
  now apply StronglySorted_inv in H.
Qed.

Lemma sorted_firstn (n : nat) (l : list A) :
  StronglySorted R l -> StronglySorted R (firstn n l).
Proof.
  revert l. induction n as [| n IH]; intros l H; [constructor |].
  destruct l as [| a l]; [constructor |]. simpl.
  apply StronglySorted_inv in H. destruct H as [Hs Ha].
  constructor; [now apply IH |].
  apply Forall_forall. intros y Hy. rewrite Forall_forall in Ha.
  apply Ha. revert Hy. apply firstn_incl.
Qed.

Lemma sorted_filter (f : A -> bool) (l : list A) :
  StronglySorted R l -> StronglySorted R (filter f l).
Proof.
  induction 1 as [| a l Hs IH Ha]; simpl; [constructor |].
  destruct (f a); [| exact IH]. constructor; [exact IH |].
  apply Forall_forall. intros y Hy. rewrite Forall_forall in Ha.
  apply Ha. revert Hy. apply incl_filter.
Qed.

End SortedSublists.

Lemma page_sorted (limit offset : Z) (sd ed : option Z) (rows : list Message) :
  StronglySorted newer_or_equal (Query.page limit offset sd ed rows).
Proof.
  unfold Query.page, Query.range. apply sorted_firstn, sorted_skipn.
  apply order_created_at_desc_sorted.
Qed.

Lemma page_in_dates (limit offset : Z) (sd ed : option Z) (rows : list Message) :
  Forall (fun m => in_dates sd ed m = true) (Query.page limit offset sd ed rows).
Proof.
  apply Forall_forall. intros m H. unfold Query.page in H.
  apply range_incl in H. rewrite order_created_at_desc_In in H.
  now apply created_between_In in H.
Qed.

(** X1. For a positive [limit] and a non-negative [offset],
    [get_messages] returns at most [limit] messages, each of them within
    the date bounds, which are inclusive at both ends. *)
Theorem get_messages_size_and_dates
        (contains : string -> string -> bool) (limit offset : Z)
        (search : option string) (sd ed : option Z) (s : Store)
        (Hlimit : 1 <= limit) (Hoffset : 0 <= offset) :
  Z.of_nat (List.length (result (Db.get_messages contains limit offset search
                                   sd ed) s))
  <= limit
  /\ Forall (fun m => in_dates sd ed m = true)
       (result (Db.get_messages contains limit offset search sd ed) s).
Proof.
  split.
  - pose proof (page_length limit offset sd ed (juju_messages s)) as Hp.
    rewrite Z.max_r in Hp by lia.
    rewrite get_messages_result. cbv zeta.
    destruct search as [pat |]; [| exact Hp].
    match goal with
    | |- context [if ?b then _ else _] => destruct b
    end; [| exact Hp].
    match goal with
    | |- context [filter ?f ?l] => pose proof (filter_length_le f l)
    end.
    lia.
  - apply Forall_forall. intros m H. apply get_messages_in_page in H.
    pose proof (page_in_dates limit offset sd ed (juju_messages s)) as Hd.
    rewrite Forall_forall in Hd. now apply Hd.
Qed.

Lemma get_messages_size_and_dates_witness :
  Z.of_nat
    (List.length
       (result (Db.get_messages Sample.icontains 2 1 None
                  (Some (Sample.day 9)) None) Sample.store_search))
  <= 2
  /\ Forall
       (fun m => in_dates (Some (Sample.day 9)) None m = true)
       (result (Db.get_messages Sample.icontains 2 1 None
                  (Some (Sample.day 9)) None) Sample.store_search).
Proof.
  apply (get_messages_size_and_dates Sample.icontains 2 1 None
           (Some (Sample.day 9)) None Sample.store_search); lia.
Defined.

(** X2. [get_messages] returns its messages newest first: no message is
    followed by one with a later [created_at], with or without a search. *)
Theorem get_messages_newest_first
        (contains : string -> string -> bool) (limit offset : Z)
        (search : option string) (sd ed : option Z) (s : Store) :
  StronglySorted newer_or_equal
    (result (Db.get_messages contains limit offset search sd ed) s).
Proof.
  pose proof (page_sorted limit offset sd ed (juju_messages s)) as Hp.
  rewrite get_messages_result. cbv zeta.
  destruct search as [pat |]; [| exact Hp].
  match goal with
  | |- context [if ?b then _ else _] => destruct b
  end; [now apply sorted_filter | exact Hp].
Qed.

(** X3. With a non-empty search text [get_messages] returns exactly the
    messages of the fetched page whose question or response matches; a
    message whose question and response are both null is never returned. *)
Theorem get_messages_search_keeps_matches
        (contains : string -> string -> bool) (limit offset : Z)
        (pat : string) (sd ed : option Z) (s : Store)
        (Hpat : pat <> ""%string) :
  (forall m,
      In m (result (Db.get_messages contains limit offset (Some pat) sd ed) s)
      <-> In m (Query.page limit offset sd ed (juju_messages s))
          /\ (Db.contains contains pat (question m)
              || Db.contains contains pat (response m)) = true)
  /\ (forall m,
         question m = None -> response m = None ->
         ~ In m (result (Db.get_messages contains limit offset (Some pat)
                           sd ed) s)).
Proof.
  assert (Hchar : forall m,
      In m (result (Db.get_messages contains limit offset (Some pat) sd ed) s)
      <-> In m (Query.page limit offset sd ed (juju_messages s))
          /\ Db.search_mask contains pat m = true).
  { intros m. rewrite get_messages_result. cbv zeta.
    assert (Ht : Py.str_truthy (Some pat) = true)
      by (simpl; apply negb_true_iff; now apply String.eqb_neq).
    rewrite Ht. cbn [andb].
    destruct (Query.page limit offset sd ed (juju_messages s)) as [| m0 ms] eqn:E.
    - simpl. tauto.
    - cbn [empty negb]. cbv iota. rewrite filter_In. tauto. }
  split; [exact Hchar |].
  intros m Hq Hr Hin. apply Hchar in Hin. destruct Hin as [_ Hm].
  unfold Db.search_mask in Hm. rewrite Hq, Hr in Hm. discriminate.
Qed.

Lemma get_messages_search_keeps_matches_witness :
  (forall m,
      In m (result (Db.get_messages Sample.icontains 4 0 (Some "refund"%string)
                      None None) Sample.store_search)
      <-> In m (Query.page 4 0 None None (juju_messages Sample.store_search))
          /\ (Db.contains Sample.icontains "refund" (question m)
              || Db.contains Sample.icontains "refund" (response m)) = true)
  /\ (forall m,
         question m = None -> response m = None ->
         ~ In m (result (Db.get_messages Sample.icontains 4 0
                           (Some "refund"%string) None None)
                   Sample.store_search)).
Proof.
  apply (get_messages_search_keeps_matches Sample.icontains 4 0 "refund"
           None None Sample.store_search).
  discriminate.
Defined.

(** X4. [get_evaluations] makes no query at all for an empty list of
    message ids, and one query otherwise; it returns exactly the evaluation
    rows whose [message_id] is among the ids. *)
Theorem get_evaluations_by_ids (message_ids : list Z) (s : Store) :
  queries (Db.get_evaluations message_ids) s
  = (if empty message_ids then [] else [T_juju_evaluations])
  /\ (forall e,
         In e (result (Db.get_evaluations message_ids) s)
         <-> In e (juju_evaluations s) /\ In (message_id e) message_ids).
Proof.
  assert (Hin : forall ids e,
             In e (Query.message_id_in ids (juju_evaluations s))
             <-> In e (juju_evaluations s) /\ In (message_id e) ids).
  { intros ids e. unfold Query.message_id_in. rewrite filter_In, mem_In.
    tauto. }
  unfold queries, result, Db.get_evaluations.
  destruct message_ids as [| i ids]; cbn [empty].
  - split; [reflexivity |]. intros e. simpl. tauto.
  - split; [reflexivity |]. intros e. apply Hin.
Qed.

(* ===================================================================== *)
(** ** Filters and pagination of the joined page *)
(* ===================================================================== *)

Lemma merge_left_fetched (page msgs : list Message) (evals : list Evaluation) :
  incl msgs page ->
  merge_left msgs (Query.message_id_in (map id page) evals)
  = merge_left msgs evals.
Proof.
  unfold merge_left. induction msgs as [| m l IH]; intros Hsub; [reflexivity |].
  cbn [flat_map].
  rewrite IH by (intros x Hx; apply Hsub; now right).
  rewrite evals_of_message_id_in by (apply Hsub; now left).
  reflexivity.
Qed.

Lemma filter_andb {A : Type} (f g : A -> bool) (l : list A) :
  filter g (filter f l) = filter (fun x => f x && g x) l.
Proof.
  induction l as [| a l IH]; simpl; [reflexivity |].
  destruct (f a); simpl; [destruct (g a); now rewrite IH | exact IH].
Qed.

Lemma filter_all {A : Type} (l : list A) : filter (fun _ => true) l = l.
Proof. induction l as [| a l IH]; simpl; [reflexivity | now rewrite IH]. Qed.

Lemma filter_search_as_filter (contains : string -> string -> bool)
      (search : option string) (l : list JoinedRecord) :
  Db.filter_search contains search l = filter (search_ok contains search) l.
Proof.
  unfold Db.filter_search, search_ok. destruct search as [pat |].
  - destruct (Py.str_truthy (Some pat)); [reflexivity | now rewrite filter_all].
  - now rewrite filter_all.
Qed.

Lemma filter_column_as_filter (f : Evaluation -> string) (value : option string)
      (l : list JoinedRecord) :
  Db.filter_column f value l = filter (column_ok f value) l.
Proof.
  unfold Db.filter_column, column_ok. destruct value as [v |].
  - destruct (Py.str_truthy (Some v) && negb (String.eqb v "All"));
      [reflexivity | now rewrite filter_all].
  - now rewrite filter_all.
Qed.

Lemma filter_high_risk_as_filter (hr : bool) (l : list JoinedRecord) :
  Db.filter_high_risk hr l = filter (high_risk_ok hr) l.
Proof.
  unfold Db.filter_high_risk, high_risk_ok.
  destruct hr; [reflexivity | now rewrite filter_all].
Qed.

(** X5. Once at least one evaluation is fetched for the page, the four
    criteria of [get_messages_with_evals] are AND-combined over the left
    join of the page with the evaluations table: the result is that join,
    in its order, restricted to the rows that pass the search, the question
    type, the complexity and the high-risk tests. *)
Theorem criteria_are_and_combined
        (contains : string -> string -> bool) (limit offset : Z)
        (search : option string) (sd ed : option Z) (qt cx : option string)
        (hr : bool) (s : Store)
        (Hev : page_evaluations limit offset sd ed s <> []) :
  result (Db.get_messages_with_evals contains limit offset search sd ed
            qt cx hr) s
  = filter
      (fun r =>
         search_ok contains search r
         && column_ok question_type qt r
         && column_ok question_complexity cx r
         && high_risk_ok hr r)
      (merge_left (Query.page limit offset sd ed (juju_messages s))
         (juju_evaluations s)).
Proof.
  rewrite get_messages_with_evals_result. cbv zeta.
  fold (page_evaluations limit offset sd ed s).
  destruct (Query.page limit offset sd ed (juju_messages s)) as [| m0 ms] eqn:E.
  - reflexivity.
  - cbn [empty].
    destruct (page_evaluations limit offset sd ed s) as [| e0 es] eqn:Ee;
      [contradiction |].
    cbn [empty].
    rewrite filter_high_risk_as_filter, !filter_column_as_filter,
      filter_search_as_filter, !filter_andb.
    rewrite <- Ee. unfold page_evaluations. rewrite E.
    rewrite merge_left_fetched by apply incl_refl.
    apply filter_ext. intros r. now rewrite !andb_assoc.
Qed.

Lemma criteria_are_and_combined_witness :
  result (Db.get_messages_with_evals Sample.icontains 25 0
            (Some "refund"%string) None None (Some "how_to"%string) None false)
    Sample.store_half_evaluated
  = filter
      (fun r =>
         search_ok Sample.icontains (Some "refund"%string) r
         && column_ok question_type (Some "how_to"%string) r
         && column_ok question_complexity None r
         && high_risk_ok false r)
      (merge_left
         (Query.page 25 0 None None (juju_messages Sample.store_half_evaluated))
         (juju_evaluations Sample.store_half_evaluated)).
Proof.
  apply (criteria_are_and_combined Sample.icontains 25 0
           (Some "refund"%string) None None (Some "how_to"%string) None false
           Sample.store_half_evaluated).
  discriminate.
Defined.

(** X6. When no evaluation is fetched for the page, [get_messages_with_evals]
    returns every message of the page, whatever the search text, the
    question type, the complexity and the high-risk flag. *)
Theorem criteria_ignored_without_evaluations
        (contains : string -> string -> bool) (limit offset : Z)
        (search : option string) (sd ed : option Z) (qt cx : option string)
        (hr : bool) (s : Store)
        (Hev : page_evaluations limit offset sd ed s = []) :
  result (Db.get_messages_with_evals contains limit offset search sd ed
            qt cx hr) s
  = map (fun m => mkJoined m None)
      (Query.page limit offset sd ed (juju_messages s)).
Proof.
  rewrite get_messages_with_evals_result. cbv zeta.
  fold (page_evaluations limit offset sd ed s). rewrite Hev.
  destruct (Query.page limit offset sd ed (juju_messages s)); reflexivity.
Qed.

Lemma criteria_ignored_without_evaluations_witness :
  result (Db.get_messages_with_evals Sample.icontains 25 0
            (Some "invoice"%string) None None (Some "pricing"%string)
            (Some "complex"%string) true)
    Sample.store_no_evals
  = map (fun m => mkJoined m None)
      (Query.page 25 0 None None (juju_messages Sample.store_no_evals)).
Proof.
  apply (criteria_ignored_without_evaluations Sample.icontains 25 0
           (Some "invoice"%string) None None (Some "pricing"%string)
           (Some "complex"%string) true Sample.store_no_evals).
  reflexivity.
Defined.







Lemma insert_desc_perm (m : Message) (l : list Message) :
  Permutation (Query.insert_desc m l) (m :: l).
Proof.
  induction l as [| x l IH]; simpl; [apply Permutation_refl |].
  destruct (created_at x <=? created_at m); [apply Permutation_refl |].
  eapply perm_trans; [apply perm_skip, IH | apply perm_swap].
Qed.

Lemma order_created_at_desc_perm (rows : list Message) :
  Permutation (Query.order_created_at_desc rows) rows.
Proof.
  unfold Query.order_created_at_desc.
  induction rows as [| m rows IH]; simpl; [apply Permutation_refl |].
  eapply perm_trans; [apply insert_desc_perm | now apply perm_skip].
Qed.

(** Two newest-first arrangements of rows with pairwise distinct
    [created_at] are the same list. *)
Lemma newest_first_unique (l1 l2 : list Message) :
  NoDup (map created_at l1) -> Permutation l1 l2 ->
  StronglySorted newer_or_equal l1 -> StronglySorted newer_or_equal l2 ->
  l1 = l2.
Proof.
  revert l2. induction l1 as [| a l1 IH]; intros l2 Hnd Hp H1 H2.
  - apply Permutation_nil in Hp. now subst.
  - destruct l2 as [| b l2];
      [apply Permutation_sym, Permutation_nil in Hp; discriminate |].
    simpl in Hnd. apply NoDup_cons_iff in Hnd. destruct Hnd as [Ha Hnd].
    apply StronglySorted_inv in H1. destruct H1 as [H1 Fa].
    apply StronglySorted_inv in H2. destruct H2 as [H2 Fb].
    rewrite Forall_forall in Fa, Fb.
    assert (Hab : a = b).
    { assert (Hb : In b (a :: l1))
        by (apply (Permutation_in b (Permutation_sym Hp)); now left).
      assert (Ha' : In a (b :: l2))
        by (apply (Permutation_in a Hp); now left).
      destruct Hb as [Hb | Hb]; [exact Hb |].
      destruct Ha' as [Ha' | Ha']; [now symmetry |].
      exfalso. apply Ha.
      pose proof (Fa b Hb) as Hle1. pose proof (Fb a Ha') as Hle2.
      unfold newer_or_equal in *.
      replace (created_at a) with (created_at b) by lia.
      now apply in_map. }
    subst b. f_equal. apply IH; auto.
    eapply Permutation_cons_inv; eauto.
Qed.

(** With pairwise distinct [created_at], newest first leaves the store one
    order only, the one [Query.order_created_at_desc] computes. *)
Lemma order_created_at_desc_unique (rows l : list Message) :
  NoDup (map created_at rows) -> Permutation l rows ->
  StronglySorted newer_or_equal l ->
  l = Query.order_created_at_desc rows.
Proof.
  intros Hnd Hp Hs. apply newest_first_unique.
  - eapply Permutation_NoDup; [| exact Hnd].
    apply Permutation_map, Permutation_sym, Hp.
  - eapply perm_trans; [exact Hp |].
    apply Permutation_sym, order_created_at_desc_perm.
  - exact Hs.
  - apply order_created_at_desc_sorted.
Qed.



(* ===================================================================== *)
(** ** The flagged frame *)
(* ===================================================================== *)

Lemma eqb_true_iff (b : bool) : Bool.eqb b true = true <-> b = true.
Proof. destruct b; simpl; split; congruence. Qed.

Lemma eq_bool_false_iff (c : option bool) :
  Pd.eq_bool c false = true <-> c = Some false.
Proof. destruct c as [[|] |]; simpl; split; congruence. Qed.

Lemma flag_mask_iff (thr : Q) (e : Evaluation) :
  Db.flag_mask thr e = true
  <-> hallucination_detected e = true
      \/ capability_hallucination e = true
      \/ (Pd.fillna 1 (faithfulness_score e) < thr)%Q
      \/ citation_accurate e = Some false.
Proof.
  unfold Db.flag_mask, Db.mask_hallucination, Db.mask_capability_hallucination,
    Db.mask_low_faithfulness, Db.mask_inaccurate_citation.
  rewrite !orb_true_iff, !eqb_true_iff, Qltb_lt, eq_bool_false_iff. tauto.
Qed.

Lemma flagged_row_sound (limit : Z) (thr : Q) (sd ed : option Z) (s : Store)
      (m : Message) (e : Evaluation) :
  In (m, e) (Db.rows (result (Db.get_flagged_messages limit thr sd ed) s)) ->
  In m (juju_messages s) /\ In e (juju_evaluations s)
  /\ message_id e = id m /\ in_dates sd ed m = true
  /\ Db.flag_mask thr e = true.
Proof.
  intros H. pose proof (get_flagged_messages_rows _ _ _ _ _ _ _ H)
    as [Hm [He [Hid Hmask]]].
  repeat split; auto.
  revert H. rewrite get_flagged_messages_result. cbv zeta.
  destruct (empty (juju_evaluations s)); [intros [] |].
  destruct (empty (filter (Db.flag_mask thr) (juju_evaluations s)));
    [intros [] |].
  destruct (empty (flagged_messages_df limit thr sd ed s)); [intros [] |].
  intros H. apply merge_inner_In in H. destruct H as [H _].
  unfold flagged_messages_df, Query.limit in H. apply firstn_incl in H.
  rewrite order_created_at_desc_In in H. now apply created_between_In in H.
Qed.

Lemma insert_desc_length (m : Message) (l : list Message) :
  List.length (Query.insert_desc m l) = S (List.length l).
Proof.
  induction l as [| x l IH]; simpl; [reflexivity |].
  destruct (created_at x <=? created_at m); simpl; [reflexivity | now rewrite IH].
Qed.

Lemma order_created_at_desc_length (rows : list Message) :
  List.length (Query.order_created_at_desc rows) = List.length rows.
Proof.
  unfold Query.order_created_at_desc.
  induction rows as [| m rows IH]; simpl; [reflexivity |].
  now rewrite insert_desc_length, IH.
Qed.

Lemma created_between_length (sd ed : option Z) (rows : list Message) :
  (List.length (Query.created_between sd ed rows) <= List.length rows)%nat.
Proof.
  assert (Hg : forall d l,
             (List.length (Query.gte_created_at d l) <= List.length l)%nat).
  { intros [t |] l; simpl; [apply filter_length_le | lia]. }
  assert (Hl : forall d l,
             (List.length (Query.lte_created_at d l) <= List.length l)%nat).
  { intros [t |] l; simpl; [apply filter_length_le | lia]. }
  unfold Query.created_between.
  specialize (Hl ed (Query.gte_created_at sd rows)). specialize (Hg sd rows).
  lia.
Qed.

Lemma flagged_row_complete (limit : Z) (thr : Q) (sd ed : option Z) (s : Store)
      (m : Message) (e : Evaluation) :
  Z.of_nat (List.length (juju_messages s)) <= limit ->
  In m (juju_messages s) -> In e (juju_evaluations s) ->
  message_id e = id m -> in_dates sd ed m = true ->
  Db.flag_mask thr e = true ->
  In (m, e) (Db.rows (result (Db.get_flagged_messages limit thr sd ed) s)).
Proof.
  intros Hlimit Hm He Hid Hd Hmask.
  assert (Hfl : In e (filter (Db.flag_mask thr) (juju_evaluations s)))
    by (apply filter_In; auto).
  assert (Hdf : In m (flagged_messages_df limit thr sd ed s)).
  { unfold flagged_messages_df, Query.limit.
    rewrite firstn_all2.
    - rewrite order_created_at_desc_In. apply created_between_In.
      split; [| exact Hd]. unfold Query.id_in. apply filter_In.
      split; [exact Hm |]. apply mem_In. rewrite <- Hid. now apply in_map.
    - rewrite order_created_at_desc_length.
      match goal with
      | |- context [Query.created_between ?a ?b ?l] =>
          pose proof (created_between_length a b l) as H1
      end.
      unfold Query.id_in in *.
      match goal with
      | H : context [filter ?f ?l] |- _ => pose proof (filter_length_le f l)
      end.
      lia. }
  rewrite get_flagged_messages_result. cbv zeta.
  destruct (juju_evaluations s) as [| e0 es] eqn:Ee; [destruct He |].
  cbn [empty].
  destruct (filter (Db.flag_mask thr) (e0 :: es)) as [| f0 fs] eqn:Ef;
    [destruct Hfl |].
  cbn [empty].
  destruct (flagged_messages_df limit thr sd ed s) as [| d0 ds] eqn:Ed;
    [destruct Hdf |].
  cbn [empty]. apply merge_inner_In. auto.
Qed.

(** X8. Every row [get_flagged_messages] returns pairs a message of the
    store with one of its own evaluation rows, lies within the inclusive
    date bounds, and its evaluation meets at least one of the four flag
    conditions: hallucination detected, capability hallucination,
    faithfulness (null read as 1) below the threshold, or citation marked
    inaccurate. *)
Theorem flagged_rows_meet_a_flag_condition
        (limit : Z) (thr : Q) (sd ed : option Z) (s : Store) :
  Forall
    (fun r =>
       In (fst r) (juju_messages s) /\ In (snd r) (juju_evaluations s)
       /\ message_id (snd r) = id (fst r)
       /\ in_dates sd ed (fst r) = true
       /\ (hallucination_detected (snd r) = true
           \/ capability_hallucination (snd r) = true
           \/ (Pd.fillna 1 (faithfulness_score (snd r)) < thr)%Q
           \/ citation_accurate (snd r) = Some false))
    (Db.rows (result (Db.get_flagged_messages limit thr sd ed) s)).
Proof.
  apply Forall_forall. intros [m e] H. simpl.
  apply flagged_row_sound in H. destruct H as [Hm [He [Hid [Hd Hmask]]]].
  apply flag_mask_iff in Hmask. tauto.
Qed.

(** X9. When [limit] is at least the number of messages in the store,
    [get_flagged_messages] misses nothing: every evaluation that meets the
    flag mask and whose message lies within the date bounds is returned
    with its message. *)
Theorem flagged_complete_when_limit_covers_store
        (limit : Z) (thr : Q) (sd ed : option Z) (s : Store)
        (m : Message) (e : Evaluation)
        (Hlimit : Z.of_nat (List.length (juju_messages s)) <= limit)
        (Hm : In m (juju_messages s)) (He : In e (juju_evaluations s))
        (Hid : message_id e = id m) (Hd : in_dates sd ed m = true)
        (Hmask : Db.flag_mask thr e = true) :
  In (m, e) (Db.rows (result (Db.get_flagged_messages limit thr sd ed) s)).
Proof. now apply flagged_row_complete. Qed.

Lemma flagged_complete_when_limit_covers_store_witness :
  In (Sample.m_refund, Sample.e_zero)
    (Db.rows (result (Db.get_flagged_messages 100 (7 # 10) None None)
                Sample.store_zero_score)).
Proof.
  apply (flagged_complete_when_limit_covers_store 100 (7 # 10) None None
           Sample.store_zero_score Sample.m_refund Sample.e_zero).
  - simpl. lia.
  - simpl. now left.
  - simpl. now left.
  - reflexivity.
  - reflexivity.
  - reflexivity.
Defined.

Lemma flag_mask_mono (thr1 thr2 : Q) (e : Evaluation) :
  (thr1 <= thr2)%Q -> Db.flag_mask thr1 e = true -> Db.flag_mask thr2 e = true.
Proof.
  intros Hle. rewrite !flag_mask_iff. intros [H | [H | [H | H]]]; auto.
  right. right. left. eapply Qlt_le_trans; eauto.
Qed.

(** X10. Raising the threshold never unflags a record: when [limit] is at
    least the number of messages in the store, every row returned for a
    threshold is returned for every larger threshold. *)
Theorem flagged_grows_with_threshold
        (limit : Z) (thr1 thr2 : Q) (sd ed : option Z) (s : Store)
        (Hlimit : Z.of_nat (List.length (juju_messages s)) <= limit)
        (Hle : (thr1 <= thr2)%Q) :
  incl (Db.rows (result (Db.get_flagged_messages limit thr1 sd ed) s))
    (Db.rows (result (Db.get_flagged_messages limit thr2 sd ed) s)).
Proof.
  intros [m e] H. apply flagged_row_sound in H.
  destruct H as [Hm [He [Hid [Hd Hmask]]]].
  apply flagged_row_complete; auto. eapply flag_mask_mono; eauto.
Qed.

Lemma flagged_grows_with_threshold_witness :
  incl
    (Db.rows (result (Db.get_flagged_messages 100 (1 # 2) None None)
                Sample.store_half_evaluated))
    (Db.rows (result (Db.get_flagged_messages 100 (7 # 10) None None)
                Sample.store_half_evaluated)).
Proof.
  apply (flagged_grows_with_threshold 100 (1 # 2) (7 # 10) None None
           Sample.store_half_evaluated).
  - simpl. lia.
  - unfold Qle. simpl. lia.
Defined.


Lemma sorted_flat_map_repeat {A : Type} (R : A -> A -> Prop) (k : A -> nat)
      (l : list A) :
  (forall x, R x x) ->
  StronglySorted R l ->
  StronglySorted R (flat_map (fun x => repeat x (k x)) l).
Proof.
  intros Hrefl. induction 1 as [| a l Hs IH Ha]; [constructor |].
  cbn [flat_map].
  assert (Hall : Forall (R a) (flat_map (fun x => repeat x (k x)) l)).
  { apply Forall_forall. intros y Hy. apply in_flat_map in Hy.
    destruct Hy as [x [Hx Hy]]. apply repeat_spec in Hy. subst y.
    rewrite Forall_forall in Ha. now apply Ha. }
  induction (k a) as [| n IHn]; [exact IH |].
  simpl. constructor; [exact IHn |].
  apply Forall_app. split; [| exact Hall].
  apply Forall_forall. intros y Hy. apply repeat_spec in Hy. subst y.
  apply Hrefl.
Qed.






(* ===================================================================== *)
(** ** Bounds of the summary *)
(* ===================================================================== *)

Lemma get_metrics_summary_result (now : Z) (sd ed : option Z) (s : Store) :
  result (Db.get_metrics_summary now sd ed) s =
  let messages_df := Query.created_between sd ed (juju_messages s) in
  if empty messages_df
  then Db.mkSummary 0 (Py.Num 0) (Py.Num 0) (Py.Num 0) 0
  else
    let evals_df :=
      Query.message_id_in (map id messages_df) (juju_evaluations s) in
    Db.mkSummary
      (Db.len messages_df)
      (Py.round (Py.or_ (Pd.mean (map response_time_ms messages_df)) 0) 0)
      (Py.round
         (Py.or_
            (if negb (empty evals_df)
             then Pd.mean (map faithfulness_score evals_df)
             else Py.Num 0)
            0)
         3)
      (Py.round
         (Py.Num
            ((if negb (empty evals_df)
              then
                if 0 <? Db.len evals_df
                then
                  inject_Z
                    (Pd.sum_bool
                       (map (fun e => Some (hallucination_detected e)) evals_df))
                  / inject_Z (Db.len evals_df)
                else 0
              else 0) * 100))
         1)
      (Db.len
         (filter
            (fun m => Db.date_of (created_at m) =? Db.date_of now)
            messages_df)).
Proof.
  unfold result, Db.get_metrics_summary, bind, Query.execute_messages,
    Query.execute_evaluations, ret.
  cbv zeta.
  destruct (empty (Query.created_between sd ed (juju_messages s)));
    [reflexivity |].
  match goal with
  | |- context [empty ?df] => destruct (empty df)
  end; reflexivity.
Qed.

Lemma sum_bool_bounds (x : list (option bool)) :
  0 <= Pd.sum_bool x <= Db.len x.
Proof.
  unfold Pd.sum_bool, Db.len. split; [lia |].
  apply Nat2Z.inj_le.
  etransitivity; [apply filter_length_le |].
  induction x as [| [b |] x IH]; simpl; lia.
Qed.

Lemma round_half_even_bounds (a b : Z) (y : Q) :
  (inject_Z a <= y)%Q -> (y <= inject_Z b)%Q ->
  a <= Py.round_half_even y <= b.
Proof.
  intros Ha Hb.
  assert (Hfa : a <= Qfloor y)
    by (rewrite <- (Qfloor_Z a); now apply Qfloor_resp_le).
  assert (Hfb : Qfloor y <= b)
    by (rewrite <- (Qfloor_Z b); now apply Qfloor_resp_le).
  unfold Py.round_half_even.
  destruct (Qcompare_spec (y - inject_Z (Qfloor y)) (1 # 2)) as [H | H | H].
  - destruct (Z.even (Qfloor y)); [lia |].
    destruct (Z.eq_dec (Qfloor y) b) as [E | E]; [| lia].
    exfalso. rewrite E in H.
    assert (Hy : (y == inject_Z b + (1 # 2))%Q)
      by (rewrite <- H; ring).
    rewrite Hy in Hb. revert Hb. apply Qlt_not_le.
    rewrite <- (Qplus_0_r (inject_Z b)) at 1.
    apply Qplus_lt_r. reflexivity.
  - lia.
  - destruct (Z.eq_dec (Qfloor y) b) as [E | E]; [| lia].
    exfalso. rewrite E in H.
    assert (Hlt : (inject_Z b < y)%Q).
    { apply Qlt_le_trans with (y := (inject_Z b + (1 # 2))%Q).
      - rewrite <- (Qplus_0_r (inject_Z b)) at 1.
        apply Qplus_lt_r. reflexivity.
      - apply Qlt_le_weak.
        setoid_replace y with (inject_Z b + (y - inject_Z b))%Q by ring.
        apply Qplus_lt_r. exact H. }
    exact (Qlt_not_le _ _ Hlt Hb).
Qed.

Lemma round_percent (q : Q) :
  (0 <= q)%Q -> (q <= 100)%Q ->
  exists q', Py.round (Py.Num q) 1 = Py.Num q' /\ (0 <= q')%Q /\ (q' <= 100)%Q.
Proof.
  intros H0 H100. unfold Py.round. eexists. split; [reflexivity |].
  change (inject_Z (10 ^ Z.of_nat 1)) with (inject_Z 10).
  assert (Hb : 0 <= Py.round_half_even (q * inject_Z 10) <= 1000).
  { apply round_half_even_bounds.
    - change (inject_Z 0) with (0 * inject_Z 10)%Q.
      apply Qmult_le_compat_r; [exact H0 | discriminate].
    - change (inject_Z 1000) with (100 * inject_Z 10)%Q.
      apply Qmult_le_compat_r; [exact H100 | discriminate]. }
  rewrite Qred_correct.
  generalize dependent (Py.round_half_even (q * inject_Z 10)). intros k Hk.
  unfold Qle, Qdiv, Qmult, Qinv, inject_Z. simpl. lia.
Qed.

Lemma count_ratio_bounds (c n : Z) :
  0 <= c <= n -> 0 < n ->
  (0 <= inject_Z c / inject_Z n * 100)%Q
  /\ (inject_Z c / inject_Z n * 100 <= 100)%Q.
Proof.
  intros Hc Hn. unfold Qle, Qdiv, Qmult, Qinv, inject_Z. simpl.
  destruct n as [| n | n]; try lia. simpl. split; nia.
Qed.

(** X12. The hallucination rate of [get_metrics_summary] is always a number
    between 0 and 100, never [nan], whatever the store holds. *)
Theorem summary_hallucination_rate_is_a_percentage
        (now : Z) (sd ed : option Z) (s : Store) :
  exists q,
    Db.hallucination_rate (result (Db.get_metrics_summary now sd ed) s)
    = Py.Num q
    /\ (0 <= q)%Q /\ (q <= 100)%Q.
Proof.
  rewrite get_metrics_summary_result. cbv zeta.
  destruct (empty (Query.created_between sd ed (juju_messages s))).
  - exists 0%Q. repeat split; discriminate.
  - cbn [Db.hallucination_rate].
    set (evals := Query.message_id_in _ _).
    apply round_percent.
    + destruct (negb (empty evals)); [| discriminate].
      destruct (0 <? Db.len evals) eqn:E; [| discriminate].
      apply Z.ltb_lt in E. apply count_ratio_bounds; [| exact E].
      pose proof (sum_bool_bounds
                    (map (fun e => Some (hallucination_detected e)) evals)) as H.
      unfold Db.len in *. rewrite length_map in H. exact H.
    + destruct (negb (empty evals)); [| discriminate].
      destruct (0 <? Db.len evals) eqn:E; [| discriminate].
      apply Z.ltb_lt in E. apply count_ratio_bounds; [| exact E].
      pose proof (sum_bool_bounds
                    (map (fun e => Some (hallucination_detected e)) evals)) as H.
      unfold Db.len in *. rewrite length_map in H. exact H.
Qed.

(** X13. In the summary, [total_messages] is the number of messages within
    the date bounds, and [messages_today] counts some of them: it lies
    between 0 and [total_messages]. *)
Theorem summary_counts
        (now : Z) (sd ed : option Z) (s : Store) :
  let summary := result (Db.get_metrics_summary now sd ed) s in
  Db.total_messages summary
  = Db.len (filter (in_dates sd ed) (juju_messages s))
  /\ 0 <= Db.messages_today summary <= Db.total_messages summary.
Proof.
  cbv zeta. rewrite get_metrics_summary_result. cbv zeta.
  assert (Hcb : Query.created_between sd ed (juju_messages s)
                = filter (in_dates sd ed) (juju_messages s)).
  { unfold Query.created_between, Query.lte_created_at, Query.gte_created_at,
      in_dates.
    destruct sd as [t1 |], ed as [t2 |].
    - apply filter_andb.
    - apply filter_ext. intros m. now rewrite andb_true_r.
    - reflexivity.
    - now rewrite filter_all. }
  rewrite Hcb.
  destruct (filter (in_dates sd ed) (juju_messages s)) as [| m0 ms] eqn:E.
  - simpl. unfold Db.len. simpl. lia.
  - cbn [empty Db.total_messages Db.messages_today]. split; [reflexivity |].
    unfold Db.len.
    match goal with
    | |- context [filter ?f ?l] => pose proof (filter_length_le f l)
    end.
    lia.
Qed.

(* ===================================================================== *)
(** ** Shape of the daily series *)
(* ===================================================================== *)

Lemma insert_date_In (d x : Z) (l : list Z) :
  In x (Db.insert_date d l) <-> x = d \/ In x l.
Proof.
  induction l as [| y l IH]; simpl; [intuition |].
  destruct (Z.compare_spec d y); simpl.
  - subst. intuition.
  - intuition.
  - rewrite IH. intuition.
Qed.

Lemma insert_date_sorted (d : Z) (l : list Z) :
  StronglySorted Z.lt l -> StronglySorted Z.lt (Db.insert_date d l).
Proof.
  induction 1 as [| x l Hs IH Hx]; simpl.
  - constructor; constructor.
  - destruct (Z.compare_spec d x).
    + now constructor.
    + constructor; [now constructor |].
      constructor; [assumption |].
      eapply Forall_impl; [| exact Hx]. intros; lia.
    + constructor; [exact IH |].
      apply Forall_forall. intros y Hy. apply insert_date_In in Hy.
      destruct Hy as [-> | Hy]; [lia |].
      rewrite Forall_forall in Hx. now apply Hx.
Qed.

Lemma group_keys_sorted (rows : list Db.DailyRow) :
  StronglySorted Z.lt (Db.group_keys rows).
Proof.
  unfold Db.group_keys. induction (map Db.d_date rows) as [| d l IH]; simpl;
    [constructor | now apply insert_date_sorted].
Qed.

Lemma group_keys_In (rows : list Db.DailyRow) (d : Z) :
  In d (Db.group_keys rows) <-> In d (map Db.d_date rows).
Proof.
  unfold Db.group_keys. induction (map Db.d_date rows) as [| x l IH]; simpl;
    [tauto |].
  rewrite insert_date_In, IH. intuition.
Qed.

Lemma groupby_dates (merged : list Db.DailyRow) :
  map Db.date (Db.groupby_date_agg merged) = Db.group_keys merged.
Proof.
  unfold Db.groupby_date_agg. rewrite map_map. simpl. apply map_id.
Qed.

(** The frame [get_daily_metrics] groups. *)
Lemma get_daily_metrics_grouped (now days : Z) (sd ed : option Z) (s : Store) :
  exists merged,
    result (Db.get_daily_metrics now days sd ed) s = Db.groupby_date_agg merged
    /\ (forall d,
           In d (map Db.d_date merged)
           <-> In d (map (fun m => Db.date_of (created_at m))
                       (daily_messages now days sd ed s)))
    /\ (one_evaluation_per_message (juju_evaluations s) ->
        List.length merged = List.length (daily_messages now days sd ed s)).
Proof.
  rewrite get_daily_metrics_result. cbv zeta. fold (daily_messages now days sd ed s).
  set (msgs := daily_messages now days sd ed s).
  set (evals := Query.message_id_in (map id msgs) (juju_evaluations s)).
  destruct (empty msgs) eqn:E.
  - apply empty_true in E. exists []. rewrite E. simpl. repeat split; tauto.
  - destruct (negb (empty evals)).
    + exists (map Db.daily_row (merge_left msgs evals)). split; [reflexivity |].
      assert (Hd : map Db.d_date (map Db.daily_row (merge_left msgs evals))
                   = map (fun m => Db.date_of (created_at m))
                       (map jr_message (merge_left msgs evals)))
        by (rewrite !map_map; reflexivity).
      split.
      * intros d. rewrite Hd, merge_left_messages, !in_map_iff. split.
        -- intros [m [Hm Hin]]. apply in_flat_map in Hin.
           destruct Hin as [m' [Hm' Hrep]]. apply repeat_spec in Hrep. subst m.
           eauto.
        -- intros [m [Hm Hin]]. exists m. split; [exact Hm |].
           apply in_flat_map. exists m. split; [exact Hin |].
           destruct (List.length (evals_of m evals)); simpl; now left.
      * intros Huniq.
        rewrite length_map, <- (length_map jr_message), merge_left_messages.
        unfold evals at 1. rewrite repeat_once; [reflexivity | exact Huniq |].
        apply incl_refl.
    + exists (map Db.daily_row_no_evals msgs). split; [reflexivity |].
      split; [| intros _; apply length_map].
      intros d. rewrite map_map. reflexivity.
Qed.

(** X14. The day buckets of [get_daily_metrics] come in strictly increasing
    date order: ascending, and no date twice. *)
Theorem daily_dates_strictly_increasing
        (now days : Z) (sd ed : option Z) (s : Store) :
  StronglySorted Z.lt
    (map Db.date (result (Db.get_daily_metrics now days sd ed) s)).
Proof.
  destruct (get_daily_metrics_grouped now days sd ed s) as [merged [-> _]].
  rewrite groupby_dates. apply group_keys_sorted.
Qed.

Lemma group_nonempty (merged : list Db.DailyRow) (d : Z) :
  In d (map Db.d_date merged) -> 1 <= Db.len (Db.group d merged).
Proof.
  intros H. apply in_map_iff in H. destruct H as [r [Hd Hr]].
  assert (Hin : In r (Db.group d merged))
    by (apply filter_In; split; [exact Hr | now apply Z.eqb_eq]).
  unfold Db.len. destruct (Db.group d merged); [destruct Hin | simpl; lia].
Qed.

(** X15. [get_daily_metrics] makes a bucket for exactly the calendar dates
    on which a fetched message was created: no day without messages is
    filled in, no day with a message is dropped, and every bucket counts at
    least one row. *)
Theorem daily_buckets_are_the_days_with_messages
        (now days : Z) (sd ed : option Z) (s : Store) :
  (forall d,
      In d (map Db.date (result (Db.get_daily_metrics now days sd ed) s))
      <-> exists m,
          In m (daily_messages now days sd ed s)
          /\ Db.date_of (created_at m) = d)
  /\ Forall (fun b => 1 <= Db.message_count b)
       (result (Db.get_daily_metrics now days sd ed) s).
Proof.
  destruct (get_daily_metrics_grouped now days sd ed s)
    as [merged [-> [Hdates _]]].
  split.
  - intros d. rewrite groupby_dates, group_keys_In, Hdates, in_map_iff.
    split; intros [m [H1 H2]]; exists m; tauto.
  - apply Forall_forall. intros b Hb.
    pose proof (groupby_date_agg_In _ _ Hb) as Heq.
    rewrite Heq. cbn [Db.message_count Db.aggregate].
    apply group_nonempty. apply group_keys_In.
    rewrite <- groupby_dates. now apply in_map.
Qed.

(** X16. The hallucination rate of every day bucket lies between 0 and
    100. *)
Theorem daily_hallucination_rate_is_a_percentage
        (now days : Z) (sd ed : option Z) (s : Store) :
  Forall (fun b => (0 <= Db.b_hallucination_rate b)%Q
                   /\ (Db.b_hallucination_rate b <= 100)%Q)
    (result (Db.get_daily_metrics now days sd ed) s).
Proof.
  destruct (get_daily_metrics_grouped now days sd ed s) as [merged [-> _]].
  apply Forall_forall. intros b Hb.
  apply daily_rate_over_all_rows in Hb. destruct Hb as [-> _].
  unfold Db.hallucination_agg.
  match goal with
  | |- context [Pd.sum_bool ?x] => pose proof (sum_bool_bounds x) as Hs
  end.
  destruct (0 <? Db.len _) eqn:E; [| split; discriminate].
  apply Z.ltb_lt in E. now apply count_ratio_bounds.
Qed.

Lemma Zsum_cons (x : Z) (l : list Z) : Zsum (x :: l) = x + Zsum l.
Proof. reflexivity. Qed.

Lemma Zsum_indicator (x : Z) (keys : list Z) :
  NoDup keys -> In x keys ->
  Zsum (map (fun d => if x =? d then 1 else 0) keys) = 1.
Proof.
  induction 1 as [| k keys Hk Hnd IH]; intros Hin; [destruct Hin |].
  simpl. destruct (Z.eqb_spec x k) as [-> | Hne].
  - assert (Hz : Zsum (map (fun d => if k =? d then 1 else 0) keys) = 0).
    { clear IH Hin Hnd. induction keys as [| y keys IH]; simpl; [reflexivity |].
      destruct (Z.eqb_spec k y) as [-> | _].
      - exfalso. apply Hk. now left.
      - rewrite IH; [reflexivity |]. intros H. apply Hk. now right. }
    lia.
  - destruct Hin as [-> | Hin]; [contradiction |]. rewrite IH by exact Hin. lia.
Qed.

Lemma group_sizes_add_up (keys : list Z) (rows : list Db.DailyRow) :
  NoDup keys ->
  (forall r, In r rows -> In (Db.d_date r) keys) ->
  Zsum (map (fun d => Db.len (Db.group d rows)) keys) = Db.len rows.
Proof.
  intros Hnd. induction rows as [| r rows IH]; intros Hcov.
  - clear. unfold Db.len. simpl.
    induction keys as [| k keys IHk]; simpl; [reflexivity | exact IHk].
  - assert (Hsplit :
      Zsum (map (fun d => Db.len (Db.group d (r :: rows))) keys)
      = Zsum (map (fun d => if Db.d_date r =? d then 1 else 0) keys)
        + Zsum (map (fun d => Db.len (Db.group d rows)) keys)).
    { clear. induction keys as [| k keys IHk]; [reflexivity |].
      rewrite !map_cons, !Zsum_cons, IHk. unfold Db.len, Db.group.
      cbn [filter]. destruct (Db.d_date r =? k); cbn [List.length]; lia. }
    rewrite Hsplit, Zsum_indicator, IH.
    + unfold Db.len. cbn [List.length]. lia.
    + intros r' Hr'. apply Hcov. now right.
    + exact Hnd.
    + apply Hcov. now left.
Qed.

Lemma sorted_lt_NoDup (l : list Z) : StronglySorted Z.lt l -> NoDup l.
Proof.
  induction 1 as [| a l Hs IH Ha]; constructor; [| exact IH].
  intros Hin. rewrite Forall_forall in Ha. specialize (Ha a Hin). lia.
Qed.

(** X17. The daily series and the summary count the same messages: when
    every message has at most one evaluation row and both are asked for the
    same explicit start date and end date, the [message_count]s of the day
    buckets add up to the summary's [total_messages]. *)
Theorem daily_counts_add_up_to_total
        (now days start : Z) (ed : option Z) (s : Store)
        (Huniq : one_evaluation_per_message (juju_evaluations s)) :
  Zsum (map Db.message_count
          (result (Db.get_daily_metrics now days (Some start) ed) s))
  = Db.total_messages
      (result (Db.get_metrics_summary now (Some start) ed) s).
Proof.
  destruct (get_daily_metrics_grouped now days (Some start) ed s)
    as [merged [-> [_ Hlen]]].
  specialize (Hlen Huniq).
  unfold Db.groupby_date_agg. rewrite map_map. cbn [Db.message_count Db.aggregate].
  rewrite group_sizes_add_up.
  - rewrite get_metrics_summary_result. cbv zeta.
    unfold daily_messages, Db.default_start in Hlen. unfold Db.len.
    rewrite Hlen.
    destruct (Query.created_between (Some start) ed (juju_messages s));
      reflexivity.
  - apply sorted_lt_NoDup, group_keys_sorted.
  - intros r Hr. apply group_keys_In. now apply in_map.
Qed.

Lemma daily_counts_add_up_to_total_witness :
  Zsum (map Db.message_count
          (result (Db.get_daily_metrics (Sample.day 13) 30 (Some (Sample.day 9))
                     None) Sample.store_half_evaluated))
  = Db.total_messages
      (result (Db.get_metrics_summary (Sample.day 13) (Some (Sample.day 9)) None)
         Sample.store_half_evaluated).
Proof.
  apply (daily_counts_add_up_to_total (Sample.day 13) 30 (Sample.day 9) None
           Sample.store_half_evaluated).
  intros m. unfold evals_of.
  cbn [juju_evaluations Sample.store_half_evaluated filter].
  destruct (message_id Sample.e_halluc =? id m); simpl; lia.
Defined.

Lemma daily_depends_on_default_start (now days days' : Z) (sd sd' ed : option Z) :
  Db.default_start now days sd = Db.default_start now days' sd' ->
  Db.get_daily_metrics now days sd ed = Db.get_daily_metrics now days' sd' ed.
Proof. intros H. unfold Db.get_daily_metrics. now rewrite H. Qed.

(** X18. For any range string other than ["7d"], ["30d"] and ["90d"] (the
    all-time selection), the daily rows of [metrics_page] and [api_daily]
    are those of the last 90 days, the same as for ["90d"], while the
    summary of the same request counts every message of the store. *)
Theorem all_time_daily_series_covers_90_days
        (now : Z) (range_str : string) (s : Store)
        (H7 : range_str <> "7d"%string) (H30 : range_str <> "30d"%string)
        (H90 : range_str <> "90d"%string) :
  Routes.daily_data now range_str s = Routes.daily_data now "90d" s
  /\ Db.total_messages (result (Routes.metrics now range_str) s)
     = Db.len (juju_messages s).
Proof.
  apply String.eqb_neq in H7, H30, H90.
  unfold Routes.daily_data, Routes.metrics, Routes.days_of_range,
    Main.parse_date_range.
  rewrite H7, H30, H90. cbv beta iota zeta. split.
  - change (String.eqb "90d" "7d") with false.
    change (String.eqb "90d" "30d") with false.
    change (String.eqb "90d" "90d") with true. cbv iota.
    now rewrite (daily_depends_on_default_start now 90 90 None
                   (Some (now - 90 * 86400)) None eq_refl).
  - rewrite get_metrics_summary_result. cbv zeta.
    unfold Query.created_between. simpl.
    destruct (juju_messages s); reflexivity.
Qed.

Lemma all_time_daily_series_covers_90_days_witness :
  Routes.daily_data (Sample.day 13) "all" Sample.store_search
  = Routes.daily_data (Sample.day 13) "90d" Sample.store_search
  /\ Db.total_messages
       (result (Routes.metrics (Sample.day 13) "all") Sample.store_search)
     = Db.len (juju_messages Sample.store_search).
Proof.
  apply (all_time_daily_series_covers_90_days (Sample.day 13) "all"
           Sample.store_search); discriminate.
Defined.

(* ===================================================================== *)
(** ** The flagged page: cards and summary counts *)
(* ===================================================================== *)

Lemma app_nil_iff {A : Type} (l1 l2 : list A) :
  l1 ++ l2 = [] <-> l1 = [] /\ l2 = [].
Proof.
  split.
  - intros H. now apply app_eq_nil.
  - intros [-> ->]. reflexivity.
Qed.

(** X19. On the flagged page, for a threshold of at most 1, a flagged row
    gets no issue label at all exactly when it was flagged for low
    faithfulness alone and its score is exactly 0; every other flagged row
    shows at least one label. *)
Theorem flagged_card_without_label
        (object : bool) (thr : Q) (row : Message * Evaluation)
        (Hthr : (thr <= 1)%Q)
        (Hflag : Db.flag_mask thr (snd row) = true) :
  FlaggedCard.issues object thr row = []
  <-> hallucination_detected (snd row) = false
      /\ capability_hallucination (snd row) = false
      /\ citation_accurate (snd row) <> Some false
      /\ exists q, faithfulness_score (snd row) = Some q /\ (q == 0)%Q.
Proof.
  destruct row as [m e]. cbn [snd] in *.
  apply flag_mask_iff in Hflag.
  unfold FlaggedCard.issues, FlaggedCard.faithfulness_cell. cbn [snd].
  rewrite !app_nil_iff.
  destruct (hallucination_detected e).
  { split; [intros [H _]; discriminate | intros [H _]; discriminate]. }
  destruct (capability_hallucination e).
  { split; [intros [_ [H _]]; discriminate | intros [_ [H _]]; discriminate]. }
  destruct (citation_accurate e) as [[|] |] eqn:Ec; cbn [Pd.eq_bool Bool.eqb].
  2:{ split; [intros [_ [_ [_ H]]]; discriminate | intros [_ [_ [H _]]]; congruence]. }
  all: destruct Hflag as [H | [H | [H | H]]]; try discriminate.
  all: destruct (faithfulness_score e) as [q |] eqn:Es; cbn [Pd.fillna] in H;
    [| exfalso; exact (Qlt_not_le _ _ H Hthr)].
  all: cbn [Pd.to_dict_cell Py.obj_truthy Py.obj_lt].
  all: apply Qltb_lt in H; rewrite H, andb_true_r.
  all: destruct (Qeq_bool q 0) eqn:Eq; cbn [negb]; cbv iota.
  all: try (apply Qeq_bool_eq in Eq; split;
            [intros _; repeat split; try congruence; exists q; split;
               [reflexivity | exact Eq]
            | intros _; repeat split]).
  all: split; [intros [_ [_ [Hc _]]]; discriminate |].
  all: intros [_ [_ [_ [q' [Hq Hz]]]]]; injection Hq as <-.
  all: apply Qeq_bool_iff in Hz; congruence.
Qed.

Lemma flagged_card_without_label_witness :
  FlaggedCard.issues false (7 # 10) (Sample.m_refund, Sample.e_zero) = []
  <-> hallucination_detected (snd (Sample.m_refund, Sample.e_zero)) = false
      /\ capability_hallucination (snd (Sample.m_refund, Sample.e_zero)) = false
      /\ citation_accurate (snd (Sample.m_refund, Sample.e_zero)) <> Some false
      /\ exists q,
          faithfulness_score (snd (Sample.m_refund, Sample.e_zero)) = Some q
          /\ (q == 0)%Q.
Proof.
  apply (flagged_card_without_label false (7 # 10)
           (Sample.m_refund, Sample.e_zero)).
  - unfold Qle. simpl. lia.
  - reflexivity.
Defined.

Lemma sum_bool_as_filter {A : Type} (f : A -> bool) (df : list A) :
  Pd.sum_bool (map (fun r => Some (f r)) df) = Db.len (filter f df).
Proof.
  unfold Pd.sum_bool, Db.len. f_equal.
  induction df as [| r df IH]; simpl; [reflexivity |].
  destruct (f r); simpl; now rewrite IH.
Qed.

(** X20. The issue summary of the [/flagged] route and that of the
    Streamlit page agree on the hallucination, capability hallucination and
    bad citation counts for every frame; for a threshold in (0, 1] the
    page's low faithfulness count is the route's plus the number of records
    whose score is exactly 0. *)
Theorem flagged_summaries_differ_by_zero_scores
        (object : bool) (thr : Q) (df : list (Message * Evaluation))
        (H0 : (0 < thr)%Q) (H1 : (thr <= 1)%Q) :
  Main.halluc_count df = FlaggedIssues.halluc_count df
  /\ Main.cap_halluc_count df = FlaggedIssues.cap_halluc_count df
  /\ Main.bad_citation_count df = FlaggedIssues.bad_citations df
  /\ FlaggedIssues.low_faith_count thr df
     = Main.low_faith_count object thr df + zero_score_count df.
Proof.
  split; [| split; [| split]].
  - unfold Main.halluc_count, FlaggedIssues.halluc_count.
    now rewrite (sum_bool_as_filter (fun r => hallucination_detected (snd r))).
  - unfold Main.cap_halluc_count, FlaggedIssues.cap_halluc_count.
    now rewrite (sum_bool_as_filter (fun r => capability_hallucination (snd r))).
  - reflexivity.
  - rewrite (route_low_faith_count object thr df H1).
    unfold FlaggedIssues.low_faith_count, zero_score_count, Db.len.
    induction df as [| r df IH]; [reflexivity |].
    cbn [filter]. destruct (faithfulness_score (snd r)) as [q |]; cbn [Pd.lt].
    + destruct (Qeq_bool q 0) eqn:E; cbn [negb andb].
      * assert (Hlt : Py.Qltb q thr = true).
        { apply Qltb_lt. apply Qeq_bool_eq in E. now rewrite E. }
        rewrite Hlt. cbn [List.length]. lia.
      * destruct (Py.Qltb q thr); cbn [List.length]; lia.
    + exact IH.
Qed.

Lemma flagged_summaries_differ_by_zero_scores_witness :
  Main.halluc_count [(Sample.m_refund, Sample.e_zero)]
  = FlaggedIssues.halluc_count [(Sample.m_refund, Sample.e_zero)]
  /\ Main.cap_halluc_count [(Sample.m_refund, Sample.e_zero)]
     = FlaggedIssues.cap_halluc_count [(Sample.m_refund, Sample.e_zero)]
  /\ Main.bad_citation_count [(Sample.m_refund, Sample.e_zero)]
     = FlaggedIssues.bad_citations [(Sample.m_refund, Sample.e_zero)]
  /\ FlaggedIssues.low_faith_count (7 # 10) [(Sample.m_refund, Sample.e_zero)]
     = Main.low_faith_count false (7 # 10) [(Sample.m_refund, Sample.e_zero)]
       + zero_score_count [(Sample.m_refund, Sample.e_zero)].
Proof.
  apply (flagged_summaries_differ_by_zero_scores false (7 # 10)
           [(Sample.m_refund, Sample.e_zero)]).
  - reflexivity.
  - unfold Qle. simpl. lia.
Defined.

Lemma length_append (a b : string) :
  String.length (String.append a b) = (String.length a + String.length b)%nat.
Proof. induction a as [| c a IH]; simpl; [reflexivity | now rewrite IH]. Qed.

Lemma length_substring_0 (n : nat) (s : string) :
  (n <= String.length s)%nat -> String.length (String.substring 0 n s) = n.
Proof.
  revert s. induction n as [| n IH]; intros s H.
  - destruct s; reflexivity.
  - destruct s as [| c s]; simpl in *; [lia |]. rewrite IH; [reflexivity | lia].
Qed.

Lemma substring_0_append (a t : string) :
  String.substring 0 (String.length a) (String.append a t) = a.
Proof.
  induction a as [| c a IH]; simpl.
  - destruct t; reflexivity.
  - now rewrite IH.
Qed.

(** X21. The question preview of a card is never longer than [n + 3]
    characters, starts with the same [n] characters as the question, and is
    either the question itself or, for a question longer than [n], exactly
    [n + 3] characters long. *)
Theorem question_preview_is_bounded (n : nat) (s : string) :
  (String.length (FlaggedCard.question_preview n s) <= n + 3)%nat
  /\ String.substring 0 n (FlaggedCard.question_preview n s)
     = String.substring 0 n s
  /\ (FlaggedCard.question_preview n s = s
      \/ (n < String.length s
          /\ String.length (FlaggedCard.question_preview n s) = n + 3)%nat).
Proof.
  unfold FlaggedCard.question_preview.
  destruct (Nat.ltb_spec n (String.length s)) as [Hlt | Hge].
  - assert (Hlen : String.length (String.substring 0 n s) = n)
      by (apply length_substring_0; lia).
    rewrite length_append, Hlen. simpl String.length.
    split; [lia |]. split; [| right; lia].
    rewrite <- Hlen at 1. now rewrite substring_0_append.
  - split; [lia |]. split; [reflexivity | now left].
Qed.

(* ===================================================================== *)
(** ** Order of the joined page, and the averages of the summary *)
(* ===================================================================== *)

Lemma sorted_map_filter {A B : Type} (R : B -> B -> Prop) (f : A -> B)
      (p : A -> bool) (l : list A) :
  StronglySorted R (map f l) -> StronglySorted R (map f (filter p l)).
Proof.
  induction l as [| a l IH]; simpl; intros H; [constructor |].
  apply StronglySorted_inv in H. destruct H as [Hs Ha].
  destruct (p a); [| now apply IH]. simpl. constructor; [now apply IH |].
  apply Forall_forall. intros y Hy. rewrite Forall_forall in Ha. apply Ha.
  apply in_map_iff in Hy. destruct Hy as [x [Hx Hin]]. subst y.
  apply in_map. revert Hin. apply incl_filter.
Qed.

Lemma merge_left_sorted (msgs : list Message) (evals : list Evaluation) :
  StronglySorted newer_or_equal msgs ->
  StronglySorted newer_or_equal (map jr_message (merge_left msgs evals)).
Proof.
  intros H. rewrite merge_left_messages. apply sorted_flat_map_repeat.
  - intros x. unfold newer_or_equal. lia.
  - exact H.
Qed.

(** X22. Whatever the criteria, the rows of [get_messages_with_evals] keep
    the order of the fetched page, newest message first, and every row's
    message lies within the inclusive date bounds: filtering never
    reorders. *)
Theorem joined_rows_newest_first_within_dates
        (contains : string -> string -> bool) (limit offset : Z)
        (search : option string) (sd ed : option Z) (qt cx : option string)
        (hr : bool) (s : Store) :
  StronglySorted newer_or_equal
    (map jr_message
       (result (Db.get_messages_with_evals contains limit offset search sd ed
                  qt cx hr) s))
  /\ Forall (fun r => in_dates sd ed (jr_message r) = true)
       (result (Db.get_messages_with_evals contains limit offset search sd ed
                  qt cx hr) s).
Proof.
  split.
  - pose proof (page_sorted limit offset sd ed (juju_messages s)) as Hp.
    rewrite get_messages_with_evals_result. cbv zeta.
    destruct (empty (Query.page limit offset sd ed (juju_messages s)));
      [constructor |].
    match goal with
    | |- context [empty ?df] => destruct (empty df)
    end.
    + rewrite map_map. cbn [jr_message]. now rewrite map_id.
    + rewrite filter_high_risk_as_filter, !filter_column_as_filter,
        filter_search_as_filter.
      repeat apply sorted_map_filter. now apply merge_left_sorted.
  - apply Forall_forall. intros r Hr.
    pose proof (page_in_dates limit offset sd ed (juju_messages s)) as Hd.
    rewrite Forall_forall in Hd. apply Hd.
    apply (get_messages_with_evals_in_page contains limit offset search sd ed
             qt cx hr s).
    now apply in_map.
Qed.

Lemma round_nan (x : Py.float) (n : nat) :
  Py.round x n = Py.NaN <-> x = Py.NaN.
Proof. destruct x; simpl; split; congruence. Qed.

Lemma or_nan (x : Py.float) (d : Q) : Py.or_ x d = Py.NaN <-> x = Py.NaN.
Proof.
  unfold Py.or_. destruct x as [| q]; simpl; [tauto |].
  destruct (negb (Qeq_bool q 0)); split; congruence.
Qed.

Lemma mean_nan_all_null {A : Type} (f : A -> option Q) (l : list A) :
  Pd.mean (map f l) = Py.NaN <-> forall x, In x l -> f x = None.
Proof.
  rewrite mean_nan, dropna_nil. split.
  - intros H x Hx. apply H. now apply in_map.
  - intros H c Hc. apply in_map_iff in Hc. destruct Hc as [x [<- Hx]]. auto.
Qed.

Lemma message_id_in_no_ids (evals : list Evaluation) :
  Query.message_id_in [] evals = [].
Proof.
  unfold Query.message_id_in. induction evals as [| e evals IH]; simpl; auto.
Qed.

(** X23. The two averages of the summary are [nan] in exactly one case
    each: [avg_response_time_ms] when there are messages within the bounds
    and all their response times are null, [avg_faithfulness] when
    evaluations were fetched and all their faithfulness scores are null.
    In every other case they are numbers. *)
Theorem summary_averages_nan_exactly_when_all_null
        (now : Z) (sd ed : option Z) (s : Store) :
  let messages_df := Query.created_between sd ed (juju_messages s) in
  let evals_df :=
    Query.message_id_in (map id messages_df) (juju_evaluations s) in
  let summary := result (Db.get_metrics_summary now sd ed) s in
  (Db.avg_response_time_ms summary = Py.NaN
   <-> messages_df <> []
       /\ forall m, In m messages_df -> response_time_ms m = None)
  /\ (Db.avg_faithfulness summary = Py.NaN
      <-> evals_df <> []
          /\ forall e, In e evals_df -> faithfulness_score e = None).
Proof.
  cbv zeta. rewrite get_metrics_summary_result. cbv zeta.
  set (msgs := Query.created_between sd ed (juju_messages s)).
  set (evals := Query.message_id_in (map id msgs) (juju_evaluations s)).
  destruct msgs as [| m0 ms] eqn:Em.
  - cbn [empty Db.avg_response_time_ms Db.avg_faithfulness]. split.
    + split; [discriminate | intros [H _]; congruence].
    + split; [discriminate |]. intros [H _]. exfalso. apply H.
      apply message_id_in_no_ids.
  - cbn [empty Db.avg_response_time_ms Db.avg_faithfulness].
    rewrite !round_nan, !or_nan. split.
    + rewrite mean_nan_all_null. split; [intros H; split; [discriminate | exact H] | tauto].
    + destruct evals as [| e0 es] eqn:Ee; cbn [empty negb].
      * split; [discriminate | intros [H _]; congruence].
      * rewrite mean_nan_all_null.
        split; [intros H; split; [discriminate | exact H] | tauto].
Qed.

(** X25, at two unevaluated messages of one day: the day's rate is 0. *)
Lemma daily_rate_zero_without_evaluations_witness :
  exists b,
    In b (result (Db.get_daily_metrics (Sample.day 11) 30 None None)
            Sample.store_no_evals)
    /\ (Db.b_hallucination_rate b == 0)%Q.
Proof.
  eexists. split; [left; reflexivity |].
  apply (daily_rate_zero_without_evaluations (Sample.day 11) 30 None None
           Sample.store_no_evals).
  - left. reflexivity.
  - intros m e _ [].
Defined.

Lemma no_criteria_one_to_one_witness :
  map jr_message
    (result (Db.get_messages_with_evals Sample.icontains 25 0 None None None
               None None false) Sample.store_half_evaluated)
  = Query.page 25 0 None None (juju_messages Sample.store_half_evaluated).
Proof.
  apply (no_criteria_one_to_one Sample.icontains 25 0 None None
           Sample.store_half_evaluated).
  intros m. unfold evals_of.
  cbn [juju_evaluations Sample.store_half_evaluated filter].
  destruct (message_id Sample.e_halluc =? id m); simpl; lia.
Defined.

(* ===================================================================== *)
(** ** Queries made *)
(* ===================================================================== *)

(** X27. The three readers that start from messages query the messages
    table first and the evaluations table second, and skip the second
    query when no message was fetched: [get_messages_with_evals],
    [get_metrics_summary] and [get_daily_metrics] make one query when their
    message frame is empty and two otherwise. *)
Theorem evaluations_queried_only_for_fetched_messages
        (contains : string -> string -> bool) (now days limit offset : Z)
        (search : option string) (sd ed : option Z) (qt cx : option string)
        (hr : bool) (s : Store) :
  queries (Db.get_messages_with_evals contains limit offset search sd ed
             qt cx hr) s
  = (if empty (Query.page limit offset sd ed (juju_messages s))
     then [T_juju_messages] else [T_juju_messages; T_juju_evaluations])
  /\ queries (Db.get_metrics_summary now sd ed) s
     = (if empty (Query.created_between sd ed (juju_messages s))
        then [T_juju_messages] else [T_juju_messages; T_juju_evaluations])
  /\ queries (Db.get_daily_metrics now days sd ed) s
     = (if empty (daily_messages now days sd ed s)
        then [T_juju_messages] else [T_juju_messages; T_juju_evaluations]).
Proof.
  unfold queries, Db.get_messages_with_evals, Db.get_metrics_summary,
    Db.get_daily_metrics, daily_messages, bind, Query.execute_messages,
    Query.execute_evaluations, ret.
  cbv zeta. repeat split.
  - destruct (empty (Query.page limit offset sd ed (juju_messages s)));
      [reflexivity |].
    match goal with
    | |- context [empty ?df] => destruct (empty df)
    end; reflexivity.
  - destruct (empty (Query.created_between sd ed (juju_messages s)));
      [reflexivity |].
    match goal with
    | |- context [empty ?df] => destruct (empty df)
    end; reflexivity.
  - match goal with
    | |- context [empty ?df] => destruct (empty df)
    end; reflexivity.
Qed.

(** X28. [get_flagged_messages] reads the evaluations table first, and
    queries the messages table only when at least one evaluation meets the
    flag mask. *)
Theorem messages_queried_only_for_flagged_evaluations
        (limit : Z) (thr : Q) (sd ed : option Z) (s : Store) :
  queries (Db.get_flagged_messages limit thr sd ed) s
  = (if empty (filter (Db.flag_mask thr) (juju_evaluations s))
     then [T_juju_evaluations] else [T_juju_evaluations; T_juju_messages]).
Proof.
  unfold queries, Db.get_flagged_messages, bind, Query.execute_evaluations,
    Query.execute_messages, ret.
  cbv zeta.
  destruct (juju_evaluations s) as [| e0 es] eqn:E; [reflexivity |].
  cbn [empty].
  destruct (empty (filter (Db.flag_mask thr) (e0 :: es))); [reflexivity |].
  match goal with
  | |- context [empty ?df] => destruct (empty df)
  end; reflexivity.
Qed.

(* ===================================================================== *)
(** ** Range of the average faithfulness *)
(* ===================================================================== *)






